(** * Dashboard_App: column classification, filter pipeline and chart dispatch

  A shallow embedding of [src/app.py], a Streamlit script.  The script has no
  functions of its own besides the two loaders: it is one top-to-bottom run
  that reads widget values, derives [num_cols] / [cat_cols], narrows [df] to
  [df_filtered] and dispatches on [chart_type].

  - [Py]  : the Python values that sit in table cells, the exceptions the
            script can meet, truthiness, [==], [<] and [sorted].
  - [Pd]  : the pandas operations the script calls ([head], [df[cols]],
            [df[mask]], [select_dtypes], [unique], [isin],
            [groupby(..).size()], [corr]).
  - [Px]  : plotly express calls, kept as the chart specification they are
            given; what the library makes of a call, a chart or an
            exception, is taken from outside (rendering is not the
            program's).
  - [App] : what a run shows and how it ends.
  - [Dashboard] : the script itself, line by line.

  A widget is read as the value it returns in the run at hand.  Static
  markdown (style sheet, headings, section frames) is not part of the
  model. *)

From Stdlib Require Import String Ascii List Bool ZArith Arith Lia Floats.
Import ListNotations.

Set Implicit Arguments.

(* ================================================================== *)
(** * Python values, exceptions and comparisons *)
(* ================================================================== *)

Module Py.

(** The objects found in table cells.  A missing cell read from a CSV or
    Excel file is the float [nan]. *)
Inductive value : Type :=
| VInt (z : Z)
| VFloat (f : float)
| VBool (b : bool)
| VStr (s : string)
| VTime (ns : Z).

(** The exceptions the modelled calls can raise. *)
Inductive exn : Type :=
| KeyError (label : string)
| TypeError
| ValueError
| Exception (message : string).   (* any other exception *)

Inductive result (A : Type) : Type :=
| Ok (a : A)
| Raise (e : exn).
Arguments Ok {A} a.
Arguments Raise {A} e.

Definition bind {A B} (m : result A) (k : A -> result B) : result B :=
  match m with
  | Ok a => k a
  | Raise e => Raise e
  end.

(** [if xs:] on a list. *)
Definition truthy {A} (xs : list A) : bool :=
  match xs with
  | [] => false
  | _ :: _ => true
  end.

(** int -> float conversion, rounding to nearest as C and numpy do. *)
Definition Z2float (z : Z) : float :=
  SF2Prim (binary_normalize prec emax z 0 false).

Definition bool2Z (b : bool) : Z := if b then 1%Z else 0%Z.

(** [int], [bool] (a subclass of [int]) and [float] compare with one
    another; [str] and timestamps only with their own kind. *)
Inductive kind : Type := KNumber | KStr | KTime.

Definition kind_of (v : value) : kind :=
  match v with
  | VInt _ | VFloat _ | VBool _ => KNumber
  | VStr _ => KStr
  | VTime _ => KTime
  end.

Definition kind_eqb (a b : kind) : bool :=
  match a, b with
  | KNumber, KNumber | KStr, KStr | KTime, KTime => true
  | _, _ => false
  end.

(** [pandas.isna] on a cell. *)
Definition isna (v : value) : bool :=
  match v with
  | VFloat f => PrimFloat.is_nan f
  | _ => false
  end.

(** ** Numbers by value

    Python compares numbers by their exact value: two floats as IEEE 754
    does, an [int] with a [float] without rounding the [int] to a float
    first.  A finite number is written [m * 2^e] with [m] odd (or
    [0 * 2^0]), so that equal numbers are written alike. *)
Inductive number : Type :=
| NaN
| Inf (negative : bool)
| Dyadic (m e : Z).

Fixpoint odd_part (m : positive) (e : Z) : positive * Z :=
  match m with
  | xO m' => odd_part m' (e + 1)
  | _ => (m, e)
  end.

Definition dyadic (m e : Z) : number :=
  match m with
  | Z0 => Dyadic 0 0
  | Zpos p => let (q, e') := odd_part p e in Dyadic (Zpos q) e'
  | Zneg p => let (q, e') := odd_part p e in Dyadic (Zneg q) e'
  end.

Definition float_value (f : float) : number :=
  match Prim2SF f with
  | S754_nan => NaN
  | S754_infinity s => Inf s
  | S754_zero _ => Dyadic 0 0
  | S754_finite s m e => dyadic (if s then Zneg m else Zpos m) e
  end.

(** The value of an [int], a [bool] or a [float]; [None] for the rest. *)
Definition number_of (v : value) : option number :=
  match v with
  | VInt z => Some (dyadic z 0)
  | VBool b => Some (dyadic (bool2Z b) 0)
  | VFloat f => Some (float_value f)
  | VStr _ | VTime _ => None
  end.

Definition number_ltb (a b : number) : bool :=
  match a, b with
  | NaN, _ | _, NaN => false
  | Inf s, Inf t => s && negb t
  | Inf s, Dyadic _ _ => s
  | Dyadic _ _, Inf t => negb t
  | Dyadic m e, Dyadic n f =>
      let k := Z.min e f in (m * 2 ^ (e - k) <? n * 2 ^ (f - k))%Z
  end.

(** As keys of a hash table: every NaN is the same key. *)
Definition number_eqb (a b : number) : bool :=
  match a, b with
  | NaN, NaN => true
  | Inf s, Inf t => Bool.eqb s t
  | Dyadic m e, Dyadic n f => (m =? n)%Z && (e =? f)%Z
  | _, _ => false
  end.

(** Key equality of the pandas hash tables behind [unique], [isin] and
    [groupby]: Python's [==], with every NaN equal to every NaN. *)
Definition py_eq (a b : value) : bool :=
  match a, b with
  | VStr s, VStr t => String.eqb s t
  | VTime s, VTime t => Z.eqb s t
  | _, _ =>
      match number_of a, number_of b with
      | Some x, Some y => number_eqb x y
      | _, _ => false
      end
  end.

(** Python's [a < b]: [TypeError] between a [str] and a number, the case
    [sorted] meets on a text column with missing cells. *)
Definition py_lt (a b : value) : result bool :=
  match a, b with
  | VStr s, VStr t => Ok (String.ltb s t)
  | VTime s, VTime t => Ok (Z.ltb s t)
  | _, _ =>
      match number_of a, number_of b with
      | Some x, Some y => Ok (number_ltb x y)
      | _, _ => Raise TypeError
      end
  end.

(** [sorted(xs)]: a stable sort driven by [<]; the first comparison that
    raises ends it. *)
Fixpoint insert_sorted (x : value) (l : list value) : result (list value) :=
  match l with
  | [] => Ok [x]
  | y :: l' =>
      bind (py_lt x y) (fun lt =>
        if lt then Ok (x :: y :: l')
        else bind (insert_sorted x l') (fun r => Ok (y :: r)))
  end.

Fixpoint sorted (l : list value) : result (list value) :=
  match l with
  | [] => Ok []
  | x :: l' => bind (sorted l') (insert_sorted x)
  end.

End Py.

Notation "x <- m ;; k" := (Py.bind m (fun x => k))
  (at level 61, m at next level, right associativity).

(* ================================================================== *)
(** * pandas: typed columns, frames and the operations the script calls *)
(* ================================================================== *)

Module Pd.
Import Py.

Inductive dtype : Type := int64 | float64 | bool_ | datetime64 | object_.

(** The dtypes [select_dtypes(include="number")] keeps. *)
Definition is_number (d : dtype) : bool :=
  match d with
  | int64 | float64 => true
  | bool_ | datetime64 | object_ => false
  end.

(** A column is an array of one storage type; only an [object] column
    holds arbitrary Python objects. *)
Inductive coldata : Type :=
| IntCol (l : list Z)
| FloatCol (l : list float)
| BoolCol (l : list bool)
| TimeCol (l : list Z)
| ObjCol (l : list value).

Definition dtype_of (c : coldata) : dtype :=
  match c with
  | IntCol _ => int64
  | FloatCol _ => float64
  | BoolCol _ => bool_
  | TimeCol _ => datetime64
  | ObjCol _ => object_
  end.

(** The cells of a column as Python objects. *)
Definition cells (c : coldata) : list value :=
  match c with
  | IntCol l => map VInt l
  | FloatCol l => map VFloat l
  | BoolCol l => map VBool l
  | TimeCol l => map VTime l
  | ObjCol l => l
  end.

(** A row operation (keep these rows, in this order) applied to a column. *)
Definition map_rows (f : forall A, list A -> list A) (c : coldata) : coldata :=
  match c with
  | IntCol l => IntCol (f _ l)
  | FloatCol l => FloatCol (f _ l)
  | BoolCol l => BoolCol (f _ l)
  | TimeCol l => TimeCol (f _ l)
  | ObjCol l => ObjCol (f _ l)
  end.

Record Series : Type := mkSeries { name : string; data : coldata }.

(** A frame: the row labels and the named columns, in order. *)
Record DataFrame : Type := mkDataFrame
  { index : list Z; columns : list Series }.

(** [len(df)] *)
Definition len (df : DataFrame) : nat := length (index df).

(** [df.empty]: some axis has length 0. *)
Definition empty (df : DataFrame) : bool :=
  (len df =? 0)%nat || (length (columns df) =? 0)%nat.

(** [df.columns.tolist()] *)
Definition columns_tolist (df : DataFrame) : list string :=
  map name (columns df).

Definition on_rows (f : forall A, list A -> list A) (df : DataFrame)
  : DataFrame :=
  {| index := f _ (index df);
     columns := map (fun s => mkSeries (name s) (map_rows f (data s)))
                    (columns df) |}.

(** [l[:n]], with Python's reading of a negative [n]. *)
Definition slice_to (n : Z) (A : Type) (l : list A) : list A :=
  if (n <? 0)%Z then firstn (length l - Z.to_nat (- n)) l
  else firstn (Z.to_nat n) l.

(** [df.head(n)] *)
Definition head (n : Z) (df : DataFrame) : DataFrame :=
  on_rows (slice_to n) df.

(** The rows a boolean mask marks. *)
Fixpoint compress (mask : list bool) (A : Type) (l : list A) : list A :=
  match mask, l with
  | b :: mask', x :: l' =>
      if b then x :: compress mask' l' else compress mask' l'
  | _, _ => []
  end.

(** [df[mask]] *)
Definition getitem_mask (df : DataFrame) (mask : list bool) : DataFrame :=
  on_rows (compress mask) df.

(** The columns carrying one label. *)
Definition labelled (label : string) (cols : list Series) : list Series :=
  filter (fun s => String.eqb (name s) label) cols.

(** [df[labels]]: the columns of each label in the order asked for;
    [KeyError] on a label the frame does not have. *)
Fixpoint take_columns (cols : list Series) (labels : list string)
  : result (list Series) :=
  match labels with
  | [] => Ok []
  | l :: ls =>
      match labelled l cols with
      | [] => Raise (KeyError l)
      | found => rest <- take_columns cols ls ;; Ok (found ++ rest)
      end
  end.

Definition getitem_cols (df : DataFrame) (labels : list string)
  : result DataFrame :=
  cols <- take_columns (columns df) labels ;;
  Ok {| index := index df; columns := cols |}.

(** [df[label]] for a label that names one column, as every label of a
    run does: the readers deliver distinct names and the multiselect of
    line 135 returns no label twice.  (Asked for a label a frame carries
    more than once, pandas hands back a frame, not a column.) *)
Definition getitem (df : DataFrame) (label : string) : result Series :=
  match labelled label (columns df) with
  | [] => Raise (KeyError label)
  | s :: _ => Ok s
  end.

(** [df.select_dtypes(include="number")] and [(exclude="number")] *)
Definition select_dtypes_include_number (df : DataFrame) : DataFrame :=
  {| index := index df;
     columns := filter (fun s => is_number (dtype_of (data s))) (columns df) |}.

Definition select_dtypes_exclude_number (df : DataFrame) : DataFrame :=
  {| index := index df;
     columns := filter (fun s => negb (is_number (dtype_of (data s))))
                       (columns df) |}.

(** [s.unique()]: the distinct cells in order of first appearance. *)
Definition add_key (seen : list value) (v : value) : list value :=
  if existsb (py_eq v) seen then seen else seen ++ [v].

Definition unique (s : Series) : list value :=
  fold_left add_key (cells (data s)) [].

(** [s.isin(values)] *)
Definition isin (s : Series) (values : list value) : list bool :=
  map (fun c => existsb (py_eq c) values) (cells (data s)).

(** [df.groupby(label).size()]: one counter per distinct key, rows with a
    missing key left out (dropna), keys in sorted order. *)
Fixpoint bump (k : value) (groups : list (value * nat))
  : list (value * nat) :=
  match groups with
  | [] => [(k, 1%nat)]
  | (g, n) :: rest =>
      if py_eq k g then (g, S n) :: rest else (g, n) :: bump k rest
  end.

Definition tally (groups : list (value * nat)) (v : value)
  : list (value * nat) :=
  if isna v then groups else bump v groups.

Definition kind_rank (k : kind) : nat :=
  match k with KNumber => 0 | KTime => 1 | KStr => 2 end.

(** The order of group keys: within a kind the order of that kind, and
    numbers before text where a column mixes them. *)
Definition key_le (a b : value) : bool :=
  match a, b with
  | VStr s, VStr t => String.leb s t
  | VTime s, VTime t => Z.leb s t
  | _, _ =>
      match number_of a, number_of b with
      | Some x, Some y => number_ltb x y || number_eqb x y
      | _, _ => (kind_rank (kind_of a) <=? kind_rank (kind_of b))%nat
      end
  end.

Fixpoint insert_group (g : value * nat) (l : list (value * nat))
  : list (value * nat) :=
  match l with
  | [] => [g]
  | h :: l' =>
      if key_le (fst g) (fst h) then g :: h :: l' else h :: insert_group g l'
  end.

Definition sort_groups (l : list (value * nat)) : list (value * nat) :=
  fold_right insert_group [] l.

Definition groupby_size (df : DataFrame) (label : string)
  : result (list (value * nat)) :=
  s <- getitem df label ;;
  Ok (sort_groups (fold_left tally (cells (data s)) [])).

(** [s.nunique()]: distinct cells, missing ones not counted. *)
Definition nunique (s : Series) : nat :=
  length (fold_left tally (cells (data s)) []).

(** ** [df.corr()]

    Pearson correlation (the default method, [min_periods = 1]) as pandas
    computes it: every column as a float array, then for each pair of
    columns one pass of Welford's update over the rows where both cells are
    finite. *)

Definition to_float_array (s : Series) : result (list float) :=
  match data s with
  | IntCol l => Ok (map Z2float l)
  | FloatCol l => Ok l
  | BoolCol l => Ok (map (fun b => Z2float (bool2Z b)) l)
  | TimeCol _ => Raise TypeError
  | ObjCol _ => Raise ValueError
  end.

Fixpoint to_float_arrays (cols : list Series) : result (list (list float)) :=
  match cols with
  | [] => Ok []
  | s :: rest =>
      a <- to_float_array s ;;
      m <- to_float_arrays rest ;;
      Ok (a :: m)
  end.

Record welford : Type := mkWelford
  { nobs : Z; meanx : float; meany : float;
    ssqdm_x : float; ssqdm_y : float; covxy : float }.

Definition welford0 : welford := mkWelford 0 0 0 0 0 0.

Definition welford_step (w : welford) (v : float * float) : welford :=
  let (vx, vy) := v in
  if PrimFloat.is_finite vx && PrimFloat.is_finite vy then
    let n := (nobs w + 1)%Z in
    let dx := (vx - meanx w)%float in
    let dy := (vy - meany w)%float in
    let mx := (meanx w + 1 / Z2float n * dx)%float in
    let my := (meany w + 1 / Z2float n * dy)%float in
    mkWelford n mx my
      (ssqdm_x w + (vx - mx) * dx)%float
      (ssqdm_y w + (vy - my) * dy)%float
      (covxy w + (vx - mx) * dy)%float
  else w.

(** The coefficient from the accumulated sums: NaN without an observation
    or with a zero divisor, otherwise the quotient clipped to [-1, 1]. *)
Definition coefficient (w : welford) : float :=
  if (nobs w <? 1)%Z then nan
  else
    let divisor := PrimFloat.sqrt (ssqdm_x w * ssqdm_y w)%float in
    if negb (PrimFloat.eqb divisor 0) then
      let val := (covxy w / divisor)%float in
      if PrimFloat.ltb 1 val then 1%float
      else if PrimFloat.ltb val (-1) then (-1)%float
      else val
    else nan.

Definition pearson (xs ys : list float) : float :=
  coefficient (fold_left welford_step (combine xs ys) welford0).

(** Entry [(xi, yi)]: computed once for [yi <= xi] and stored at both
    [(xi, yi)] and [(yi, xi)]. *)
Definition corr_entry (mat : list (list float)) (xi yi : nat) : float :=
  if (yi <=? xi)%nat then pearson (nth xi mat []) (nth yi mat [])
  else pearson (nth yi mat []) (nth xi mat []).

(** The result: a square table labelled by the column names on both axes. *)
Record CorrMatrix : Type := mkCorrMatrix
  { labels : list string; entries : list (list float) }.

Definition corr (df : DataFrame) : result CorrMatrix :=
  mat <- to_float_arrays (columns df) ;;
  let K := List.length mat in
  Ok {| labels := columns_tolist df;
        entries := map (fun xi => map (corr_entry mat xi) (seq 0 K))
                       (seq 0 K) |}.

(** ** Frames as the readers deliver them

    [read_csv] and [read_excel] rename repeated headers, so column names
    are distinct, and every column is as long as the index. *)
Fixpoint distinct (l : list string) : bool :=
  match l with
  | [] => true
  | x :: r => negb (existsb (String.eqb x) r) && distinct r
  end.

Definition aligned (df : DataFrame) : bool :=
  forallb (fun s => (List.length (cells (data s)) =? len df)%nat) (columns df).

Definition well_formed (df : DataFrame) : bool :=
  distinct (columns_tolist df) && aligned df.





(** The diagonal of a correlation table. *)
Definition diagonal (m : CorrMatrix) : list float :=
  map (fun i => nth i (nth i (entries m) []) nan)
      (seq 0 (List.length (entries m))).

(** ** Row operations and restrictions of a frame *)

(** A row operation commutes with [map], keeps rows of the list it is
    given, adds none, and cuts equally long lists equally. *)
Record natural (f : forall A, list A -> list A) : Prop := mkNatural
  { nat_map : forall A B (g : A -> B) l, f B (map g l) = map g (f A l);
    nat_incl : forall A (l : list A), incl (f A l) l;
    nat_short : forall A (l : list A), (List.length (f A l) <= List.length l)%nat;
    nat_length : forall A B (l : list A) (l' : list B),
        List.length l = List.length l' ->
        List.length (f A l) = List.length (f B l') }.

(** [s] is the column [s0] with some of its rows: same name, same dtype. *)
Definition from_column (s0 s : Series) : Prop :=
  name s = name s0
  /\ dtype_of (data s) = dtype_of (data s0)
  /\ incl (cells (data s)) (cells (data s0)).

(** Every column of [v] is a column of [df] with some of its rows. *)
Definition restricts (df v : DataFrame) : Prop :=
  forall s, In s (columns v) ->
    exists s0, In s0 (columns df) /\ from_column s0 s.

(** Every column of [df] that [labels] names (every column, when [labels]
    is empty) is kept in [v] with some of its rows. *)
Definition covers (df v : DataFrame) (labels : list string) : Prop :=
  forall s0, In s0 (columns df) -> labels = [] \/ In (name s0) labels ->
    exists s, In s (columns v) /\ from_column s0 s.

End Pd.

(* ================================================================== *)
(** * plotly express: the chart specifications the script builds *)
(* ================================================================== *)

Module Px.
Import Py Pd.

(** One constructor per [px] call of the script, holding the arguments that
    vary; the fixed keyword arguments are named in the comments.  A value of
    this type is the call; [make] below is its outcome. *)
Inductive Figure : Type :=
| bar (data_frame : DataFrame) (x : string) (y color : option string)
    (* barmode="group" *)
| line (data_frame : DataFrame) (x : string) (y color : option string)
    (* markers=True *)
| scatter (data_frame : DataFrame) (x : string) (y color : option string)
    (* trendline="ols" *)
| histogram (data_frame : DataFrame) (x : string) (color : option string)
    (* marginal="box", nbins=30 *)
| box (data_frame : DataFrame) (x : string) (y color : option string)
| pie (values : list nat) (names : list value) (hole : option float)
    (title : string)
| sunburst (data_frame : DataFrame) (path : list string)
    (values : option string) (title : string)
| imshow (img : CorrMatrix)
    (* text_auto=True, aspect="auto", title="Correlation Heatmap" *)
| violin (data_frame : DataFrame) (x : string) (y color : option string)
    (* box=True *)
| area (data_frame : DataFrame) (x : string) (y color : option string).

(** The [y] (or [values]) column a figure was given. *)
Definition figure_y (fig : Figure) : option string :=
  match fig with
  | bar _ _ y _ | line _ _ y _ | scatter _ _ y _ | box _ _ y _
  | violin _ _ y _ | area _ _ y _ => y
  | sunburst _ _ values _ => values
  | histogram _ _ _ | pie _ _ _ _ | imshow _ => None
  end.

(** What a call to plotly express raises, when it raises.  The library
    checks the frame and the columns it is given (a blank cell in a Sunburst
    path is refused) and fits the Scatter trendline with statsmodels; none
    of this is the script's, so a run takes it from outside. *)
Definition Raises : Type := Figure -> option exn.

(** Making the call: the figure, or the exception. *)
Definition make (px : Raises) (fig : Figure) : result Figure :=
  match px fig with
  | Some e => Raise e
  | None => Ok fig
  end.

End Px.

(* ================================================================== *)
(** * The script *)
(* ================================================================== *)

Module App.
Import Py Pd.

(** ** What a run shows, and how it ends *)

Inductive kpi_value : Type :=
| KpiCount (n : nat)
| KpiMeanOf (s : Series)
| KpiNA.

Inductive Event : Type :=
| st_success (msg : string)
| st_error (msg : string)
| st_error_exception (e : exn)      (* st.error(f"... Error: {str(e)}") *)
| st_info (msg : string)
| st_warning (msg : string)
| st_kpi (label : string) (column : option string) (v : kpi_value)
| st_plotly_chart (fig : Px.Figure)
| st_dataframe (d : DataFrame)
| st_download_button (d : DataFrame)
| st_describe (d : DataFrame)
| st_write (msg : string)
| st_write_nunique (col : string) (n : nat)
| st_about.

(** Status messages, as opposed to cards, charts and tables. *)
Definition is_notice (e : Event) : bool :=
  match e with
  | st_success _ | st_error _ | st_error_exception _ | st_info _
  | st_warning _ => true
  | _ => false
  end.

(** A run goes on, is ended by [st.stop()], or dies on an exception no
    handler catches. *)
Inductive flow (A : Type) : Type :=
| Next (a : A)
| Stop
| Uncaught (e : exn).
Arguments Next {A} a.
Arguments Stop {A}.
Arguments Uncaught {A} e.

Definition script (A : Type) : Type := list Event -> list Event * flow A.

Definition ret {A} (a : A) : script A := fun log => (log, Next a).

Definition seq_ {A B} (m : script A) (k : A -> script B) : script B :=
  fun log =>
    match m log with
    | (log', Next a) => k a log'
    | (log', Stop) => (log', Stop)
    | (log', Uncaught e) => (log', Uncaught e)
    end.

Definition emit (e : Event) : script unit := fun log => (log ++ [e], Next tt).

Definition st_stop {A} : script A := fun log => (log, Stop).

(** A pandas or Python call made outside any [try]. *)
Definition call {A} (r : result A) : script A :=
  fun log =>
    match r with
    | Ok a => (log, Next a)
    | Raise e => (log, Uncaught e)
    end.

(** [try: body except Exception as e: handler(e)] *)
Definition try_except (body : script unit) (handler : exn -> script unit)
  : script unit :=
  fun log =>
    match body log with
    | (log', Uncaught e) => handler e log'
    | other => other
    end.

Definition when (b : bool) (m : script unit) : script unit :=
  if b then m else ret tt.

End App.

Notation "x <~ m ;; k" := (App.seq_ m (fun x => k))
  (at level 61, m at next level, right associativity).
Notation "m ;;; k" := (App.seq_ m (fun _ => k))
  (at level 61, right associativity).

Module Dashboard.
Import Py Pd App.
Local Open Scope string_scope.
Local Open Scope list_scope.

(** ** Widget values of one run *)

Inductive ChartType : Type :=
| Bar | Line | Scatter | Histogram | BoxPlot | Pie | Donut
| Sunburst | Heatmap | Violin | Area.

(** An uploaded file: its name, and what each pandas reader makes of its
    content. *)
Record UploadedFile : Type := mkUploadedFile
  { file_name : string;
    read_csv : result DataFrame;
    read_excel : result DataFrame }.

(** The three filter widgets (lines 130, 135, 145, 147). *)
Record FilterSpec : Type := mkFilterSpec
  { row_limit : Z;
    selected_cols : list string;
    filter_col : option string;
    filter_values : list value }.

(** The chart radio and the three axis selectors (lines 44, 220-228). *)
Record ChartRequest : Type := mkChartRequest
  { chart_type : ChartType;
    x_axis : string;
    y_axis : option string;
    group_by : option string }.

Record Widgets : Type := mkWidgets
  { file : option UploadedFile;
    use_sample : bool;
    filters : FilterSpec;
    request : ChartRequest }.

(** ** Small Python helpers *)

(** [col in cols] *)
Definition str_in (col : string) (cols : list string) : bool :=
  existsb (String.eqb col) cols.

(** [y in cols] where [y] may be [None]. *)
Definition opt_in (y : option string) (cols : list string) : bool :=
  match y with
  | Some col => str_in col cols
  | None => false
  end.

Definition lower_ascii (c : ascii) : ascii :=
  let n := nat_of_ascii c in
  if ((65 <=? n) && (n <=? 90))%nat then ascii_of_nat (n + 32) else c.

Fixpoint lower (s : string) : string :=
  match s with
  | EmptyString => EmptyString
  | String c s' => String (lower_ascii c) (lower s')
  end.

Definition endswith (s suffix : string) : bool :=
  let n := String.length s in
  let m := String.length suffix in
  (m <=? n)%nat && String.eqb (substring (n - m) m s) suffix.

(** ** Loading (lines 51-108) *)

Definition load_df (f : option UploadedFile) : script (option DataFrame) :=
  match f with
  | None => ret None
  | Some f =>
      let filename := lower (file_name f) in
      let read :=
        if endswith filename ".csv" then Some (read_csv f)
        else if endswith filename ".xls" || endswith filename ".xlsx"
             then Some (read_excel f)
        else None in
      match read with
      | Some (Ok d) => ret (Some d)
      | Some (Raise e) => emit (st_error_exception e) ;;; ret None
      | None => ret None
      end
  end.

Definition get_sample_data (gapminder_2007 : result DataFrame)
  : script (option DataFrame) :=
  match gapminder_2007 with
  | Ok d => ret (Some d)
  | Raise e => emit (st_error_exception e) ;;; ret None
  end.

(** ** Column detection (lines 113-114) *)

Definition detect_num_cols (df : DataFrame) : list string :=
  columns_tolist (select_dtypes_include_number df).

Definition detect_cat_cols (df : DataFrame) : list string :=
  columns_tolist (select_dtypes_exclude_number df).

(** ** The filter pipeline (lines 126-149) *)

Record FilterState : Type := mkFilterState
  { df_filtered : DataFrame;
    num_cols : list string;
    cat_cols : list string }.

(** Lines 126-131. *)
Definition row_filter (df : DataFrame) (row_limit : Z) : FilterState :=
  {| df_filtered := head row_limit df;
     num_cols := detect_num_cols df;
     cat_cols := detect_cat_cols df |}.

(** Lines 135-140. *)
Definition column_filter (st : FilterState) (selected_cols : list string)
  : result FilterState :=
  if truthy selected_cols then
    d <- getitem_cols (df_filtered st) selected_cols ;;
    Ok {| df_filtered := d;
          num_cols := filter (fun col => str_in col selected_cols) (num_cols st);
          cat_cols := filter (fun col => str_in col selected_cols) (cat_cols st) |}
  else Ok st.

(** Lines 144-149.  The option list of the value selector is built, with
    [sorted], before the selector can return anything. *)
Definition category_filter (st : FilterState) (filter_col : option string)
    (filter_values : list value) : result FilterState :=
  if truthy (cat_cols st) then
    match filter_col with
    | Some col =>
        s <- getitem (df_filtered st) col ;;
        options <- sorted (unique s) ;;
        if truthy filter_values then
          Ok {| df_filtered :=
                  getitem_mask (df_filtered st) (isin s filter_values);
                num_cols := num_cols st;
                cat_cols := cat_cols st |}
        else Ok st
    | None => Ok st
    end
  else Ok st.

Definition apply_filters (df : DataFrame) (spec : FilterSpec)
  : result FilterState :=
  st <- column_filter (row_filter df (row_limit spec)) (selected_cols spec) ;;
  category_filter st (filter_col spec) (filter_values spec).

(** ** Chart dispatch (lines 230-324)

    The pair the branches leave in [fig] and [error_msg]; a pandas call
    inside the [try] may raise.  A figure stands for the plotly express call
    its branch ends with; [chart_tab] makes the call, inside the same
    [try]. *)

Definition ChartResult : Type := (option Px.Figure * option string)%type.

Definition Success (fig : Px.Figure) : ChartResult := (Some fig, None).
Definition Failure (error_msg : string) : ChartResult := (None, Some error_msg).

Definition select_y_msg : string := "⚠️ Please select a numeric Y axis".

Definition not_numeric_msg (x_axis : string) : string :=
  ("⚠️ X axis '" ++ x_axis ++ "' is not numeric")%string.

Definition scatter_msg (x_axis : string) : string :=
  ("⚠️ X axis '" ++ x_axis
     ++ "' is not numeric. Scatter needs numeric X & Y")%string.

Definition not_categorical_msg (x_axis : string) : string :=
  ("⚠️ X axis '" ++ x_axis ++ "' is not categorical")%string.

Definition no_data_msg : string := "⚠️ No data to display".

Definition sunburst_msg : string :=
  "⚠️ Sunburst needs categorical X and numeric Y".

Definition heatmap_msg : string :=
  "⚠️ Heatmap needs at least 2 numeric columns".

(** The Pie and Donut branches differ in [hole] only. *)
Definition pie_branch (st : FilterState) (x_axis : string)
    (hole : option float) : result ChartResult :=
  if negb (str_in x_axis (cat_cols st)) then
    Ok (Failure (not_categorical_msg x_axis))
  else
    agg_data <- groupby_size (df_filtered st) x_axis ;;
    if (0 <? List.length agg_data)%nat then
      Ok (Success (Px.pie (map snd agg_data) (map fst agg_data) hole
                     ("Distribution of " ++ x_axis)%string))
    else Ok (Failure no_data_msg).

Definition dispatch (st : FilterState) (req : ChartRequest)
  : result ChartResult :=
  let df := df_filtered st in
  let x := x_axis req in
  let y := y_axis req in
  let g := group_by req in
  match chart_type req with
  | Bar =>
      match y with
      | Some _ => Ok (Success (Px.bar df x y g))
      | None => Ok (Failure select_y_msg)
      end
  | Line =>
      match y with
      | Some _ => Ok (Success (Px.line df x y g))
      | None => Ok (Failure select_y_msg)
      end
  | Scatter =>
      match y with
      | None => Ok (Failure select_y_msg)
      | Some _ =>
          if negb (str_in x (num_cols st)) then Ok (Failure (scatter_msg x))
          else Ok (Success (Px.scatter df x y g))
      end
  | Histogram =>
      if str_in x (num_cols st) then Ok (Success (Px.histogram df x g))
      else Ok (Failure (not_numeric_msg x))
  | BoxPlot =>
      match y with
      | None => Ok (Failure select_y_msg)
      | Some _ =>
          if negb (str_in x (cat_cols st))
          then Ok (Failure (not_categorical_msg x))
          else Ok (Success (Px.box df x y g))
      end
  | Pie => pie_branch st x None
  | Donut => pie_branch st x (Some 0x1.3333333333333p-2%float) (* 0.3 *)
  | Sunburst =>
      if negb (str_in x (cat_cols st)) || negb (opt_in y (num_cols st))
      then Ok (Failure sunburst_msg)
      else Ok (Success (Px.sunburst df [x] y ("Sunburst: " ++ x)%string))
  | Heatmap =>
      if (List.length (num_cols st) <? 2)%nat then Ok (Failure heatmap_msg)
      else
        numeric <- getitem_cols df (num_cols st) ;;
        corr_matrix <- corr numeric ;;
        Ok (Success (Px.imshow corr_matrix))
  | Violin =>
      match y with
      | None => Ok (Failure select_y_msg)
      | Some _ =>
          if negb (str_in x (cat_cols st))
          then Ok (Failure (not_categorical_msg x))
          else Ok (Success (Px.violin df x y g))
      end
  | Area =>
      match y with
      | Some _ => Ok (Success (Px.area df x y g))
      | None => Ok (Failure select_y_msg)
      end
  end.

(** ** The run (lines 81-388) *)

Definition empty_dataset_msg : string := "❌ Dataset is empty!".
Definition no_columns_msg : string := "❌ No valid columns found in dataset!".
Definition no_match_msg : string :=
  "⚠️ No data matches your filters. Please adjust filters.".
Definition getting_started_msg : string :=
  "📁 **Getting Started:**
1. Upload a CSV/Excel file, OR
2. Check 'Use sample data' in the sidebar".

(** Lines 84-94: an upload has priority over the sample. *)
Definition load (gapminder_2007 : result DataFrame) (w : Widgets)
  : script (option DataFrame) :=
  df <~ match file w with
        | Some f =>
            df <~ load_df (Some f) ;;
            match df with
            | Some _ => emit (st_success ("✅ Loaded: " ++ file_name f)%string)
            | None =>
                emit (st_error ("❌ Could not load " ++ file_name f)%string)
            end ;;;
            ret df
        | None => ret None
        end ;;
  match df with
  | None =>
      if use_sample w then
        df <~ get_sample_data gapminder_2007 ;;
        when (match df with Some _ => true | None => false end)
             (emit (st_success "✅ Loaded sample data")) ;;;
        ret df
      else ret None
  | Some _ => ret df
  end.

(** Lines 161-186. *)
Definition kpi_cards (st : FilterState) : script unit :=
  let df := df_filtered st in
  emit (st_kpi "Total Rows" None (KpiCount (len df))) ;;;
  match num_cols st with
  | metric_col :: _ =>
      s <~ call (getitem df metric_col) ;;
      emit (st_kpi "Mean" (Some metric_col) (KpiMeanOf s))
  | [] => emit (st_kpi "Mean" None KpiNA)
  end ;;;
  match cat_cols st with
  | uniq :: _ =>
      s <~ call (getitem df uniq) ;;
      emit (st_kpi "Unique" (Some uniq) (KpiCount (nunique s)))
  | [] => emit (st_kpi "Unique" None KpiNA)
  end ;;;
  emit (st_kpi "Columns" None (KpiCount (List.length (columns df)))).

(** Lines 44-45 and 201-213: the label of each chart kind and its hint. *)
Definition chart_label (k : ChartType) : string :=
  match k with
  | Bar => "Bar" | Line => "Line" | Scatter => "Scatter"
  | Histogram => "Histogram" | BoxPlot => "Box Plot" | Pie => "Pie"
  | Donut => "Donut" | Sunburst => "Sunburst" | Heatmap => "Heatmap"
  | Violin => "Violin" | Area => "Area"
  end.

Definition chart_hints (k : ChartType) : string :=
  match k with
  | Bar => "✓ X: any, Y: numeric"
  | Line => "✓ X: numeric/date, Y: numeric"
  | Scatter => "✓ X: numeric, Y: numeric (no text!)"
  | Histogram => "✓ X: numeric only"
  | BoxPlot => "✓ X: categorical, Y: numeric"
  | Pie => "✓ X: categorical only"
  | Donut => "✓ X: categorical only"
  | Sunburst => "✓ X: categorical, Y: numeric"
  | Heatmap => "✓ Auto-correlates numeric columns"
  | Violin => "✓ X: categorical, Y: numeric"
  | Area => "✓ X: numeric/date, Y: numeric"
  end.

(** Lines 196-333: the hint, then inside the [try] the dispatch, the
    plotly express call of the branch taken, which may raise as the pandas
    calls may, and the display. *)
Definition chart_tab (px : Px.Raises) (st : FilterState) (req : ChartRequest)
  : script unit :=
  emit (st_info ("💡 **" ++ chart_label (chart_type req) ++ ":** "
                 ++ chart_hints (chart_type req))%string) ;;;
  try_except
    (r <~ call (dispatch st req) ;;
     match r with
     | (Some fig, _) =>
         fig <~ call (Px.make px fig) ;;
         emit (st_plotly_chart fig)
     | (None, Some error_msg) =>
         when (negb (String.eqb error_msg "")) (emit (st_warning error_msg))
     | (None, None) => ret tt
     end)
    (fun e => emit (st_error_exception e)).

(** Lines 340-346. *)
Definition data_tab (st : FilterState) : script unit :=
  emit (st_dataframe (df_filtered st)) ;;;
  emit (st_download_button (df_filtered st)).

(** Lines 351-365. *)
Fixpoint write_nuniques (df : DataFrame) (cols : list string) : script unit :=
  match cols with
  | [] => ret tt
  | col :: rest =>
      s <~ call (getitem df col) ;;
      emit (st_write_nunique col (nunique s)) ;;;
      write_nuniques df rest
  end.

Definition stats_tab (st : FilterState) : script unit :=
  (if truthy (num_cols st) then
     emit (st_write "**Numeric Columns:**") ;;;
     numeric <~ call (getitem_cols (df_filtered st) (num_cols st)) ;;
     emit (st_describe numeric)
   else emit (st_info "No numeric columns")) ;;;
  when (truthy (cat_cols st))
    (emit (st_write "**Categorical Columns:**") ;;;
     write_nuniques (df_filtered st) (firstn 5 (cat_cols st))).

Definition main (px : Px.Raises) (gapminder_2007 : result DataFrame)
    (w : Widgets) : script unit :=
  df <~ load gapminder_2007 w ;;
  match df with
  | None => emit (st_info getting_started_msg) ;;; st_stop
  | Some df =>
      when (empty df || (len df =? 0)%nat)
           (emit (st_error empty_dataset_msg) ;;; st_stop) ;;;
      when (negb (truthy (detect_num_cols df))
            && negb (truthy (detect_cat_cols df)))
           (emit (st_error no_columns_msg) ;;; st_stop) ;;;
      st <~ call (apply_filters df (filters w)) ;;
      when (empty (df_filtered st) || (len (df_filtered st) =? 0)%nat)
           (emit (st_warning no_match_msg) ;;; st_stop) ;;;
      kpi_cards st ;;;
      chart_tab px st (request w) ;;;
      data_tab st ;;;
      stats_tab st ;;;
      emit st_about
  end.

(** A run from an empty page. *)
Definition run (px : Px.Raises) (gapminder_2007 : result DataFrame)
    (w : Widgets) : list Event * flow unit :=
  main px gapminder_2007 w [].

(** ** What the selectors offer (lines 135, 145, 217-228) *)

Definition all_cols (st : FilterState) : list string :=
  num_cols st ++ cat_cols st.

Definition x_options (st : FilterState) : list string :=
  if truthy (all_cols st) then all_cols st else ["No columns"].

Definition y_options (st : FilterState) : list (option string) :=
  if truthy (num_cols st) then None :: map Some (num_cols st) else [None].

Definition group_options (st : FilterState) : list (option string) :=
  if truthy (cat_cols st) then None :: map Some (cat_cols st) else [None].

(** A [selectbox] returns one of its options. *)
Definition selectbox_returns {A} (options : list A) (v : A) : Prop :=
  In v options.

(** A Filter Spec the widgets of lines 130 and 135 can deliver: at least
    one row asked for, and distinct columns of the dataset. *)
Definition filter_spec_ok (df : DataFrame) (spec : FilterSpec) : bool :=
  (1 <=? row_limit spec)%Z
  && distinct (selected_cols spec)
  && forallb (fun col => str_in col (columns_tolist df)) (selected_cols spec).

(** The category selector of line 145 offers [None] and the current
    [cat_cols]. *)
Definition filter_col_offered (df : DataFrame) (spec : FilterSpec) : bool :=
  match column_filter (row_filter df (row_limit spec)) (selected_cols spec) with
  | Ok st =>
      match filter_col spec with
      | Some col => str_in col (cat_cols st)
      | None => true
      end
  | Raise _ => true
  end.

(** Cells that [<] can compare with one another. *)
Definition same_kind (l : list value) : bool :=
  match l with
  | [] => true
  | a :: r => forallb (fun b => kind_eqb (kind_of a) (kind_of b)) r
  end.

Definition of_kind (k : kind) (l : list value) : Prop :=
  Forall (fun v => kind_of v = k) l.

(** The chosen filter column holds cells of one kind in the dataset (text
    without missing cells, say). *)
Definition filter_col_sortable (df : DataFrame) (spec : FilterSpec) : bool :=
  match filter_col spec with
  | Some col =>
      forallb (fun s => negb (String.eqb (name s) col)
                        || same_kind (cells (data s)))
              (columns df)
  | None => true
  end.

(** The column lists after lines 136-140. *)
Definition narrowed (selected_cols cols : list string) : list string :=
  if truthy selected_cols
  then filter (fun col => str_in col selected_cols) cols
  else cols.

(** The view alone. *)
Definition view (df : DataFrame) (spec : FilterSpec) : result DataFrame :=
  st <- apply_filters df spec ;; Ok (df_filtered st).

(** The kinds whose hint (lines 201-213) reads "Y: numeric". *)
Definition needs_numeric_y (k : ChartType) : bool :=
  match k with
  | Bar | Line | Scatter | BoxPlot | Sunburst | Violin | Area => true
  | Histogram | Pie | Donut | Heatmap => false
  end.

(** [d] is classified by [nums] and [cats]: the numeric names are those of
    the columns with a number dtype, the categorical names those of every
    other column, and each column name is in exactly one list. *)
Definition classified (d : DataFrame) (nums cats : list string) : Prop :=
  (forall col, In col nums <->
     exists s, In s (columns d) /\ name s = col
               /\ is_number (dtype_of (data s)) = true)
  /\ (forall col, In col cats <->
        exists s, In s (columns d) /\ name s = col
                  /\ is_number (dtype_of (data s)) = false)
  /\ (forall col, In col (columns_tolist d) <-> In col nums \/ In col cats)
  /\ (forall col, ~ (In col nums /\ In col cats)).

(** A message that quotes a column name. *)
Definition names_column (msg col : string) : Prop :=
  exists before after,
    msg = (before ++ "'" ++ col ++ "'" ++ after)%string.

End Dashboard.

(* ================================================================== *)
(** * Datasets used in the examples *)
(* ================================================================== *)

Module Samples.
Import Py Pd App Dashboard.
Local Open Scope string_scope.
Local Open Scope list_scope.

(** Region / Sales, three rows. *)
Definition sales : DataFrame :=
  {| index := [0; 1; 2]%Z;
     columns :=
       [ mkSeries "Region" (ObjCol [VStr "North"; VStr "South"; VStr "North"]);
         mkSeries "Sales" (IntCol [10; 20; 30]%Z) ] |}.

(** A text column with a blank cell, and two numeric columns of which one
    never varies. *)
Definition blanks : DataFrame :=
  {| index := [0; 1; 2]%Z;
     columns :=
       [ mkSeries "Region" (ObjCol [VStr "North"; VFloat nan; VStr "North"]);
         mkSeries "Sales" (IntCol [10; 20; 30]%Z);
         mkSeries "Stock" (FloatCol [5; 5; 5]%float) ] |}.

Definition no_filter : FilterSpec := mkFilterSpec 3 [] None [].

(** The widgets as first drawn over [blanks]: every row, every column, no
    category chosen. *)
Definition blanks_default : FilterSpec :=
  mkFilterSpec 3 ["Region"; "Sales"; "Stock"] None [].

(** The same, with Region chosen as the filter column and no value picked
    yet. *)
Definition blanks_by_region : FilterSpec :=
  mkFilterSpec 3 ["Region"; "Sales"; "Stock"] (Some "Region") [].

Definition by_region (values : list value) : FilterSpec :=
  mkFilterSpec 3 ["Region"; "Sales"] (Some "Region") values.

Definition sales_view : FilterState :=
  {| df_filtered := sales; num_cols := ["Sales"]; cat_cols := ["Region"] |}.

Definition blanks_view : FilterState :=
  {| df_filtered := blanks;
     num_cols := ["Sales"; "Stock"];
     cat_cols := ["Region"] |}.

Definition upload (d : DataFrame) : UploadedFile :=
  mkUploadedFile "data.csv" (Ok d) (Raise ValueError).

(** A plotly express that makes every chart it is asked for, and one that
    refuses the Sunburst call with [ValueError], as the library does for a
    path column with a blank cell. *)
Definition makes_all : Px.Raises := fun _ => None.

Definition refuses_sunburst : Px.Raises :=
  fun fig =>
    match fig with
    | Px.sunburst _ _ _ _ => Some ValueError
    | _ => None
    end.

End Samples.

(* ================================================================== *)
(** * What a log shows *)
(* ================================================================== *)

Module Shown.
Import Py Pd App Dashboard.
Local Open Scope string_scope.
Local Open Scope list_scope.

(** The error of line 117. *)
Definition is_no_columns_error (e : Event) : bool :=
  match e with
  | st_error msg => String.eqb msg no_columns_msg
  | _ => false
  end.

(** No event of the log is a [bad] one. *)
Definition never_shows (bad : Event -> bool) (log : list Event) : bool :=
  forallb (fun e => negb (bad e)) log.

(** A script that adds no [bad] event to the page, however it ends. *)
Definition adds_none (bad : Event -> bool) {A} (m : script A) : Prop :=
  forall log,
    never_shows bad log = true -> never_shows bad (fst (m log)) = true.




(** How many rows a mask keeps. *)
Definition count_true (mask : list bool) : nat :=
  List.length (filter (fun b => b) mask).

End Shown.

(* ================================================================== *)
(** * Key equality is an equivalence *)
(* ================================================================== *)

Module KeyFacts.
Import Py.

Lemma number_eqb_eq (a b : number) : number_eqb a b = true <-> a = b.
Proof.
  destruct a as [|s|m e], b as [|t|n f]; simpl; split; intros H;
    try discriminate; try reflexivity.
  - apply Bool.eqb_prop in H. now subst.
  - injection H as ->. apply Bool.eqb_reflx.
  - apply andb_true_iff in H as [H1 H2].
    apply Z.eqb_eq in H1, H2. now subst.
  - injection H as -> ->. now rewrite !Z.eqb_refl.
Qed.


Lemma py_eq_reflexive (v : value) : py_eq v v = true.
Proof.
  destruct v; simpl;
    auto using String.eqb_refl, Z.eqb_refl; now apply number_eqb_eq.
Qed.



End KeyFacts.

(* ================================================================== *)
(** * Row operations on lists *)
(* ================================================================== *)

Module RowFacts.
Import Py Pd.

Section Slices.
Variables (A B : Type) (g : A -> B).

Lemma slice_to_length (n : Z) (l : list A) :
    (0 <= n)%Z ->
    List.length (slice_to n l) = Nat.min (Z.to_nat n) (List.length l).
Proof.
    intros Hn. unfold slice_to.
    destruct (n <? 0)%Z eqn:E; [apply Z.ltb_lt in E; lia |].
    apply length_firstn.
Qed.

Lemma slice_to_all (n : Z) (l : list A) :
    (0 <= n)%Z -> (List.length l <= Z.to_nat n)%nat -> slice_to n l = l.
Proof.
    intros Hn Hl. unfold slice_to.
    destruct (n <? 0)%Z eqn:E; [apply Z.ltb_lt in E; lia |].
    now apply firstn_all2.
Qed.

Lemma firstn_incl (k : nat) (l : list A) : incl (firstn k l) l.
Proof.
    revert k; induction l as [|a l IH]; intros [|k]; simpl; intros x Hx;
      try contradiction.
    destruct Hx as [->|H]; [now left | right; now apply (IH k)].
Qed.

Lemma slice_to_incl (n : Z) (l : list A) : incl (slice_to n l) l.
Proof. unfold slice_to; destruct (n <? 0)%Z; apply firstn_incl. Qed.

Lemma slice_to_map (n : Z) (l : list A) :
    slice_to n (map g l) = map g (slice_to n l).
Proof.
    unfold slice_to. rewrite length_map.
    destruct (n <? 0)%Z; apply firstn_map.
Qed.

Lemma compress_length_le (mask : list bool) (l : list A) :
    (List.length (compress mask l) <= List.length l)%nat.
Proof.
    revert l; induction mask as [|b mask IH]; intros [|x l]; simpl; try lia.
    destruct b; simpl; specialize (IH l); lia.
Qed.

Lemma compress_incl (mask : list bool) (l : list A) :
    incl (compress mask l) l.
Proof.
    revert l; induction mask as [|b mask IH]; intros [|x l]; simpl;
      intros y Hy; try contradiction.
    destruct b.
    - destruct Hy as [->|H]; [now left | right; now apply (IH l)].
    - right; now apply (IH l).
Qed.

Lemma compress_map (mask : list bool) (l : list A) :
    compress mask (map g l) = map g (compress mask l).
Proof.
    revert l; induction mask as [|b mask IH]; intros [|x l]; simpl; auto.
    destruct b; simpl; now rewrite IH.
Qed.

Lemma compress_length_eq (mask : list bool) (l : list A) (l' : list B) :
    List.length l = List.length l' ->
    List.length (compress mask l) = List.length (compress mask l').
Proof.
    revert l l'; induction mask as [|b mask IH]; intros [|x l] [|y l'];
      simpl; try discriminate; auto.
    intros H; injection H as H. destruct b; simpl; auto.
Qed.

Lemma compress_all (mask : list bool) (l : list A) :
    forallb (fun b => b) mask = true ->
    (List.length l <= List.length mask)%nat ->
    compress mask l = l.
Proof.
    revert l; induction mask as [|b mask IH]; intros [|x l]; simpl; auto.
    - lia.
    - destruct b; simpl; [|discriminate].
      intros Hm Hl. f_equal. apply IH; auto. lia.
Qed.

  (** Rows kept by a test pass it again. *)
Lemma compress_by_test (p : A -> bool) (l : list A) :
    forallb (fun b => b) (map p (compress (map p l) l)) = true.
Proof.
    induction l as [|x l IH]; simpl; auto.
    destruct (p x) eqn:E; simpl; auto. now rewrite E.
Qed.

Lemma compress_by_test_length (p : A -> bool) (l : list A) (l' : list B) :
    List.length l = List.length l' ->
    List.length (compress (map p l) l') = List.length (compress (map p l) l).
Proof.
    intros H. symmetry. now apply compress_length_eq.
Qed.

End Slices.

Lemma slice_to_natural (n : Z) : natural (slice_to n).
Proof.
  constructor.
  - intros; apply slice_to_map.
  - intros; apply slice_to_incl.
  - intros A l. unfold slice_to. destruct (n <? 0)%Z; rewrite length_firstn; lia.
  - intros A B l l' H. unfold slice_to. rewrite <- H.
    destruct (n <? 0)%Z; rewrite !length_firstn; lia.
Qed.

Lemma compress_natural (mask : list bool) : natural (compress mask).
Proof.
  constructor.
  - intros; apply compress_map.
  - intros; apply compress_incl.
  - intros; apply compress_length_le.
  - intros; now apply compress_length_eq.
Qed.

Section Columns.
Variable f : forall A, list A -> list A.
Hypothesis Hf : natural f.

Lemma cells_map_rows (c : coldata) :
    cells (map_rows f c) = @f _ (cells c).
Proof. destruct c; simpl; auto; symmetry; apply (nat_map Hf). Qed.

Lemma dtype_map_rows (c : coldata) : dtype_of (map_rows f c) = dtype_of c.
Proof. now destruct c. Qed.

Lemma columns_tolist_on_rows (df : DataFrame) :
    columns_tolist (on_rows f df) = columns_tolist df.
Proof.
    unfold columns_tolist, on_rows; simpl. rewrite map_map; simpl.
    reflexivity.
Qed.

Lemma aligned_on_rows (df : DataFrame) :
  aligned df = true -> aligned (on_rows f df) = true.
Proof.
  unfold aligned. rewrite !forallb_forall. intros Hl s Hs.
  unfold on_rows in Hs; simpl in Hs. apply in_map_iff in Hs as [s0 [<- Hs0]].
  simpl. apply Nat.eqb_eq. rewrite cells_map_rows.
  unfold len, on_rows; simpl. apply (nat_length Hf).
  specialize (Hl s0 Hs0). now apply Nat.eqb_eq in Hl.
Qed.

Lemma well_formed_on_rows (df : DataFrame) :
  well_formed df = true -> well_formed (on_rows f df) = true.
Proof.
  unfold well_formed. rewrite columns_tolist_on_rows.
  intros H; apply andb_true_iff in H as [Hd Hl].
  apply andb_true_iff; split; auto using aligned_on_rows.
Qed.

Lemma restricts_on_rows (df : DataFrame) : restricts df (on_rows f df).
Proof.
  intros s Hs. unfold on_rows in Hs; simpl in Hs.
  apply in_map_iff in Hs as [s0 [<- Hs0]]. exists s0. split; auto.
  repeat split; simpl.
  - apply dtype_map_rows.
  - rewrite cells_map_rows. apply (nat_incl Hf).
Qed.

Lemma covers_on_rows (df : DataFrame) labels : covers df (on_rows f df) labels.
Proof.
  intros s0 Hs0 _.
  exists (mkSeries (name s0) (map_rows f (data s0))). split.
  - unfold on_rows; simpl. apply in_map_iff. now exists s0.
  - repeat split; simpl.
    + apply dtype_map_rows.
    + rewrite cells_map_rows. apply (nat_incl Hf).
Qed.

End Columns.

(** A row operation that fixes lists of the frame's length fixes the frame. *)
Lemma on_rows_fixed (f : forall A, list A -> list A) (df : DataFrame) :
  aligned df = true ->
  (forall A (l : list A), List.length l = len df -> f A l = l) ->
  on_rows f df = df.
Proof.
  intros Ha Hfix. destruct df as [idx cols]. unfold on_rows; simpl.
  f_equal; [now apply Hfix|].
  unfold aligned in Ha; simpl in Ha. rewrite forallb_forall in Ha.
  rewrite <- (map_id cols) at 2. apply map_ext_in. intros [n d] Hs.
  specialize (Ha _ Hs). apply Nat.eqb_eq in Ha. simpl in *. f_equal.
  unfold len in *; simpl in *.
  destruct d; simpl in *; rewrite ?length_map in Ha; f_equal;
    now apply Hfix.
Qed.

End RowFacts.

(* ================================================================== *)
(** * Column selection *)
(* ================================================================== *)

Module ColumnFacts.
Import Py Pd RowFacts.

Lemma existsb_eqb_In (x : string) (l : list string) :
  existsb (String.eqb x) l = true <-> In x l.
Proof.
  rewrite existsb_exists. split.
  - intros [y [Hy E]]. apply String.eqb_eq in E. now subst.
  - intros H. exists x. split; auto. apply String.eqb_refl.
Qed.

Lemma distinct_NoDup (l : list string) : distinct l = true <-> NoDup l.
Proof.
  induction l as [|x l IH]; simpl.
  - split; [constructor | reflexivity].
  - rewrite andb_true_iff, negb_true_iff, IH. split.
    + intros [Hx Hl]. constructor; auto.
      intros Hin. apply existsb_eqb_In in Hin. congruence.
    + intros H. inversion H as [|? ? Hx Hl]; subst. split; auto.
      destruct (existsb (String.eqb x) l) eqn:E; auto.
      apply existsb_eqb_In in E. contradiction.
Qed.

Lemma labelled_In (label : string) (cols : list Series) (s : Series) :
  In s (labelled label cols) <-> In s cols /\ name s = label.
Proof.
  unfold labelled. rewrite filter_In, String.eqb_eq. reflexivity.
Qed.

(** With distinct names a label picks exactly its column. *)
Lemma labelled_unique (cols : list Series) (s : Series) :
  NoDup (map name cols) -> In s cols -> labelled (name s) cols = [s].
Proof.
  induction cols as [|c cols IH]; simpl; intros Hnd Hin; [contradiction|].
  inversion Hnd as [|? ? Hc Hrest]; subst.
  destruct Hin as [->|Hin].
  - rewrite String.eqb_refl. f_equal.
    destruct (labelled (name s) cols) as [|t ts] eqn:E; auto.
    assert (Ht : In t (labelled (name s) cols)) by (rewrite E; now left).
    apply labelled_In in Ht as [Ht1 Ht2].
    exfalso. apply Hc. rewrite <- Ht2. now apply in_map.
  - destruct (String.eqb (name c) (name s)) eqn:E.
    + apply String.eqb_eq in E. exfalso. apply Hc. rewrite E. now apply in_map.
    + now apply IH.
Qed.

Lemma labelled_none (label : string) (cols : list Series) :
  labelled label cols = [] <-> ~ In label (map name cols).
Proof.
  split.
  - intros E Hin. apply in_map_iff in Hin as [s [Hn Hs]].
    assert (H : In s (labelled label cols)) by now apply labelled_In.
    rewrite E in H. contradiction.
  - intros Hn. destruct (labelled label cols) as [|t ts] eqn:E; auto.
    assert (Ht : In t (labelled label cols)) by (rewrite E; now left).
    apply labelled_In in Ht as [Ht1 Ht2].
    exfalso. apply Hn. rewrite <- Ht2. now apply in_map.
Qed.

Lemma take_columns_In (cols : list Series) (labels : list string) r :
  take_columns cols labels = Ok r ->
  forall s, In s r -> In s cols /\ In (name s) labels.
Proof.
  revert r; induction labels as [|l ls IH]; simpl; intros r H s Hs.
  - injection H as <-. contradiction.
  - destruct (labelled l cols) as [|t ts] eqn:E; [discriminate|].
    destruct (take_columns cols ls) as [rest|] eqn:Er; simpl in H;
      [|discriminate].
    injection H as <-.
    change (In s ((t :: ts) ++ rest)) in Hs. apply in_app_or in Hs as [Hs|Hs].
    + rewrite <- E in Hs. apply labelled_In in Hs as [H1 H2]. auto.
    + destruct (IH rest eq_refl s Hs). auto.
Qed.

Lemma take_columns_labels (cols : list Series) (labels : list string) r :
  take_columns cols labels = Ok r -> incl labels (map name cols).
Proof.
  revert r; induction labels as [|l ls IH]; simpl; intros r H x Hx;
    [contradiction|].
  destruct (labelled l cols) as [|t ts] eqn:E; [discriminate|].
  destruct (take_columns cols ls) as [rest|] eqn:Er; simpl in H;
    [|discriminate].
  destruct Hx as [<-|Hx]; [|now apply (IH rest)].
  destruct (in_dec string_dec l (map name cols)) as [Hin|Hout]; auto.
  apply labelled_none in Hout. congruence.
Qed.

(** On a frame with distinct names [df[labels]] has the columns named
    [labels], in that order. *)
Lemma take_columns_names (cols : list Series) (labels : list string) r :
  NoDup (map name cols) ->
  take_columns cols labels = Ok r -> map name r = labels.
Proof.
  intros Hnd. revert r; induction labels as [|l ls IH]; simpl; intros r H.
  - now injection H as <-.
  - destruct (labelled l cols) as [|t ts] eqn:E; [discriminate|].
    destruct (take_columns cols ls) as [rest|] eqn:Er; simpl in H;
      [|discriminate].
    injection H as <-.
    assert (Ht : In t (labelled l cols)) by (rewrite E; now left).
    apply labelled_In in Ht as [Ht1 Ht2]. subst l.
    rewrite (labelled_unique _ _ Hnd Ht1) in E. injection E as <-.
    simpl. f_equal. now apply IH.
Qed.

Lemma take_columns_total (cols : list Series) (labels : list string) :
  incl labels (map name cols) -> exists r, take_columns cols labels = Ok r.
Proof.
  induction labels as [|l ls IH]; simpl; intros Hincl.
  - now exists [].
  - destruct IH as [rest Hrest].
    { intros x Hx. apply Hincl. now right. }
    destruct (labelled l cols) as [|t ts] eqn:E.
    + apply labelled_none in E. exfalso. apply E, Hincl. now left.
    + rewrite Hrest. simpl. eauto.
Qed.

(** Asking a frame for its own columns, by name, returns them. *)
Lemma take_columns_self (pre cs : list Series) :
  NoDup (map name (pre ++ cs)) ->
  take_columns (pre ++ cs) (map name cs) = Ok cs.
Proof.
  revert pre; induction cs as [|c cs IH]; intros pre Hnd; simpl; auto.
  rewrite (labelled_unique (pre ++ c :: cs) c Hnd)
    by (apply in_or_app; right; now left).
  replace (pre ++ c :: cs) with ((pre ++ [c]) ++ cs) in *
    by (rewrite <- app_assoc; reflexivity).
  rewrite (IH (pre ++ [c]) Hnd). reflexivity.
Qed.

Lemma getitem_In (df : DataFrame) (label : string) (s : Series) :
  getitem df label = Ok s -> In s (columns df) /\ name s = label.
Proof.
  unfold getitem. destruct (labelled label (columns df)) as [|t ts] eqn:E;
    [discriminate|].
  intros H; injection H as <-. apply labelled_In. rewrite E. now left.
Qed.

Lemma getitem_total (df : DataFrame) (label : string) :
  In label (columns_tolist df) -> exists s, getitem df label = Ok s.
Proof.
  unfold getitem, columns_tolist. intros Hin.
  destruct (labelled label (columns df)) as [|t ts] eqn:E; eauto.
  apply labelled_none in E. contradiction.
Qed.

End ColumnFacts.

(* ================================================================== *)
(** * The stages of the filter pipeline *)
(* ================================================================== *)

Module PipelineFacts.
Import Py Pd App Dashboard RowFacts ColumnFacts.

Lemma take_columns_complete (cols : list Series) (labels : list string) r :
  take_columns cols labels = Ok r ->
  forall s, In s cols -> In (name s) labels -> In s r.
Proof.
  revert r; induction labels as [|l ls IH]; simpl; intros r H s Hs Hl;
    [contradiction|].
  destruct (labelled l cols) as [|t ts] eqn:E; [discriminate|].
  destruct (take_columns cols ls) as [rest|] eqn:Er; simpl in H;
    [|discriminate].
  injection H as <-. change (In s ((t :: ts) ++ rest)).
  apply in_or_app. destruct Hl as [->|Hl].
  - left. rewrite <- E. now apply labelled_In.
  - right. now apply (IH rest).
Qed.

Lemma getitem_cols_inv (df : DataFrame) (labels : list string) v :
  getitem_cols df labels = Ok v ->
  index v = index df /\ take_columns (columns df) labels = Ok (columns v).
Proof.
  unfold getitem_cols.
  destruct (take_columns (columns df) labels) as [cols|]; simpl;
    [|discriminate].
  intros H; injection H as <-. auto.
Qed.

Lemma from_column_refl (s : Series) : from_column s s.
Proof. repeat split. apply incl_refl. Qed.

Lemma from_column_trans (a b c : Series) :
  from_column a b -> from_column b c -> from_column a c.
Proof.
  intros (N1 & D1 & I1) (N2 & D2 & I2). repeat split; try congruence.
  eapply incl_tran; eauto.
Qed.

Lemma restricts_refl (df : DataFrame) : restricts df df.
Proof. intros s Hs. exists s. split; auto using from_column_refl. Qed.

Lemma restricts_trans (a b c : DataFrame) :
  restricts a b -> restricts b c -> restricts a c.
Proof.
  intros Hab Hbc s Hs. destruct (Hbc s Hs) as (s1 & H1 & F1).
  destruct (Hab s1 H1) as (s0 & H0 & F0).
  exists s0. split; auto. eapply from_column_trans; eauto.
Qed.

Lemma restricts_getitem_cols (df : DataFrame) labels v :
  getitem_cols df labels = Ok v -> restricts df v.
Proof.
  intros H s Hs. apply getitem_cols_inv in H as [_ H].
  destruct (take_columns_In _ _ H s Hs) as [Hin _].
  exists s. split; auto using from_column_refl.
Qed.

Lemma covers_getitem_cols (df : DataFrame) labels v :
  labels <> [] -> getitem_cols df labels = Ok v -> covers df v labels.
Proof.
  intros Hne H s0 Hs0 [E|Hl]; [contradiction|].
  apply getitem_cols_inv in H as [_ H].
  exists s0. split; auto using from_column_refl.
  eapply take_columns_complete; eauto.
Qed.

Lemma covers_trans (a b c : DataFrame) labels :
  covers a b labels -> covers b c labels -> covers a c labels.
Proof.
  intros Hab Hbc s0 Hs0 Hl. destruct (Hab s0 Hs0 Hl) as (s1 & H1 & F1).
  destruct (Hbc s1 H1) as (s2 & H2 & F2).
  { destruct Hl as [E|Hl]; auto. right. destruct F1 as [-> _]. auto. }
  exists s2. split; auto. eapply from_column_trans; eauto.
Qed.

Lemma aligned_getitem_cols (df : DataFrame) labels v :
  aligned df = true -> getitem_cols df labels = Ok v -> aligned v = true.
Proof.
  unfold aligned. rewrite !forallb_forall. intros Ha H s Hs.
  apply getitem_cols_inv in H as [Hi H].
  destruct (take_columns_In _ _ H s Hs) as [Hin _].
  unfold len. rewrite Hi. now apply Ha.
Qed.

Lemma on_rows_id (df : DataFrame) : on_rows (fun _ l => l) df = df.
Proof.
  destruct df as [idx cols]. unfold on_rows; simpl. f_equal.
  rewrite <- (map_id cols) at 2. apply map_ext. intros [n d]; simpl.
  now destruct d.
Qed.

Lemma id_natural : natural (fun _ l => l).
Proof. constructor; auto using incl_refl. Qed.

(** *** What each stage leaves behind *)

Lemma column_filter_inv (st0 st1 : FilterState) (sel : list string) :
  column_filter st0 sel = Ok st1 ->
  num_cols st1 = narrowed sel (num_cols st0)
  /\ cat_cols st1 = narrowed sel (cat_cols st0)
  /\ ((sel = [] /\ df_filtered st1 = df_filtered st0)
      \/ (sel <> [] /\ getitem_cols (df_filtered st0) sel = Ok (df_filtered st1))).
Proof.
  unfold column_filter, narrowed. destruct sel as [|c sel]; simpl.
  - intros H; injection H as <-. auto.
  - destruct (getitem_cols (df_filtered st0) (c :: sel)) as [d|] eqn:E;
      simpl; [|discriminate].
    intros H; injection H as <-. simpl. repeat split; auto.
    right. split; [discriminate | reflexivity].
Qed.

Lemma category_filter_inv (st1 st : FilterState) fc fv :
  category_filter st1 fc fv = Ok st ->
  num_cols st = num_cols st1
  /\ cat_cols st = cat_cols st1
  /\ (df_filtered st = df_filtered st1
      \/ exists col s options,
           truthy (cat_cols st1) = true /\ fc = Some col /\ fv <> []
           /\ getitem (df_filtered st1) col = Ok s
           /\ sorted (unique s) = Ok options
           /\ df_filtered st = getitem_mask (df_filtered st1) (isin s fv)).
Proof.
  unfold category_filter. destruct (truthy (cat_cols st1)) eqn:Ec.
  2:{ intros H; injection H as <-. auto. }
  destruct fc as [col|].
  2:{ intros H; injection H as <-. auto. }
  destruct (getitem (df_filtered st1) col) as [s|] eqn:Es; simpl;
    [|discriminate].
  destruct (sorted (unique s)) as [options|] eqn:Eo; simpl; [|discriminate].
  destruct fv as [|v fv]; simpl.
  - intros H; injection H as <-. auto.
  - intros H; injection H as <-. simpl. repeat split; auto.
    right. exists col, s, options. repeat split; auto. discriminate.
Qed.

Lemma apply_filters_inv (df : DataFrame) (spec : FilterSpec) st :
  apply_filters df spec = Ok st ->
  exists st1,
    column_filter (row_filter df (row_limit spec)) (selected_cols spec) = Ok st1
    /\ category_filter st1 (filter_col spec) (filter_values spec) = Ok st.
Proof.
  unfold apply_filters.
  destruct (column_filter _ _) as [st1|] eqn:E; simpl; [|discriminate].
  intros H. exists st1. auto.
Qed.

(** The view is the dataset cut to its first rows, narrowed to the selected
    columns, and cut again by a row operation (the mask, or nothing). *)
Lemma apply_filters_shape (df : DataFrame) (spec : FilterSpec) st :
  apply_filters df spec = Ok st ->
  num_cols st = narrowed (selected_cols spec) (detect_num_cols df)
  /\ cat_cols st = narrowed (selected_cols spec) (detect_cat_cols df)
  /\ exists mid f,
       natural f
       /\ df_filtered st = on_rows f mid
       /\ ((selected_cols spec = [] /\ mid = head (row_limit spec) df)
           \/ (selected_cols spec <> []
               /\ getitem_cols (head (row_limit spec) df) (selected_cols spec)
                  = Ok mid)).
Proof.
  intros H. apply apply_filters_inv in H as (st1 & Hc & Hf).
  apply column_filter_inv in Hc as (Hn1 & Hc1 & Hmid).
  apply category_filter_inv in Hf as (Hn & Hcat & Hv).
  simpl in *. rewrite Hn, Hcat, Hn1, Hc1. repeat split.
  exists (df_filtered st1).
  destruct Hv as [Hv | (col & s & options & _ & _ & _ & _ & _ & Hv)].
  - exists (fun _ l => l). rewrite on_rows_id.
    split; [apply id_natural | split; auto].
  - exists (compress (isin s (filter_values spec))).
    split; [apply compress_natural | split; auto].
Qed.

End PipelineFacts.

(* ================================================================== *)
(** * [sorted] and [unique] *)
(* ================================================================== *)

Module SortFacts.
Import Py Pd Dashboard.

Lemma py_lt_same_kind (a b : value) :
  kind_of a = kind_of b -> exists r, py_lt a b = Ok r.
Proof.
  destruct a, b; simpl; intros H; try discriminate; eauto.
Qed.

Lemma py_lt_other_kind (a b : value) :
  kind_of a <> kind_of b -> py_lt a b = Raise TypeError.
Proof.
  destruct a, b; simpl; intros H; try reflexivity; exfalso; now apply H.
Qed.

Lemma insert_sorted_ok (k : kind) (x : value) (l : list value) :
  kind_of x = k -> of_kind k l ->
  exists r, insert_sorted x l = Ok r /\ of_kind k r.
Proof.
  intros Hx. induction l as [|y l IH]; intros Hl; simpl.
  - exists [x]. split; auto. constructor; auto.
  - inversion Hl as [|? ? Hy Hl']; subst.
    destruct (py_lt_same_kind x y) as [lt Hlt]; [congruence|].
    rewrite Hlt; simpl. destruct lt.
    + eexists; split; eauto. constructor; auto.
    + destruct (IH Hl') as (r & Hr & Kr). rewrite Hr; simpl.
      eexists; split; eauto. constructor; auto.
Qed.

(** [sorted] succeeds on cells of one kind. *)
Lemma sorted_ok (k : kind) (l : list value) :
  of_kind k l -> exists r, sorted l = Ok r /\ of_kind k r.
Proof.
  induction l as [|x l IH]; intros Hl; simpl.
  - exists []. split; auto.
  - inversion Hl as [|? ? Hx Hl']; subst.
    destruct (IH Hl') as (r & Hr & Kr). rewrite Hr; simpl.
    now apply insert_sorted_ok.
Qed.

Lemma kind_eqb_eq (a b : kind) : kind_eqb a b = true <-> a = b.
Proof. destruct a, b; simpl; split; intros H; congruence. Qed.

Lemma same_kind_of_kind (l : list value) :
  same_kind l = true -> exists k, of_kind k l.
Proof.
  destruct l as [|a r]; simpl; intros H.
  - exists KStr. constructor.
  - exists (kind_of a). constructor; auto.
    rewrite forallb_forall in H. apply Forall_forall. intros b Hb.
    symmetry. apply kind_eqb_eq. auto.
Qed.

Lemma of_kind_incl (k : kind) (l l' : list value) :
  of_kind k l -> incl l' l -> of_kind k l'.
Proof.
  unfold of_kind. rewrite !Forall_forall. intros H Hi v Hv. auto.
Qed.

Lemma fold_add_key_incl (l seen : list value) :
  incl (fold_left add_key l seen) (seen ++ l).
Proof.
  revert seen; induction l as [|v l IH]; intros seen; simpl.
  - rewrite app_nil_r. apply incl_refl.
  - eapply incl_tran; [apply IH|]. unfold add_key.
    destruct (existsb (py_eq v) seen).
    + intros x Hx. apply in_app_or in Hx as [Hx|Hx]; apply in_or_app; auto.
      right. now right.
    + rewrite <- app_assoc. apply incl_refl.
Qed.

Lemma unique_incl (s : Series) : incl (unique s) (cells (data s)).
Proof. unfold unique. apply (fold_add_key_incl (cells (data s)) []). Qed.

End SortFacts.

(* ================================================================== *)
(** * The filtered view *)
(* ================================================================== *)

Module ViewFacts.
Import Py Pd App Dashboard RowFacts ColumnFacts PipelineFacts SortFacts.

Lemma str_in_In (col : string) (cols : list string) :
  str_in col cols = true <-> In col cols.
Proof. apply existsb_eqb_In. Qed.

Lemma truthy_false {A} (l : list A) : truthy l = false <-> l = [].
Proof. destruct l; simpl; split; intros H; congruence. Qed.

Lemma narrowed_In (sel cols : list string) (col : string) :
  In col (narrowed sel cols) <-> In col cols /\ (sel = [] \/ In col sel).
Proof.
  unfold narrowed. destruct sel as [|c sel].
  - simpl. tauto.
  - cbn [truthy]. rewrite filter_In, str_in_In.
    split; intros [H1 H2]; split; auto.
    destruct H2 as [H2|H2]; [discriminate | auto].
Qed.

Lemma detect_num_cols_In (df : DataFrame) (col : string) :
  In col (detect_num_cols df) <->
  exists s, In s (columns df) /\ name s = col
            /\ is_number (dtype_of (data s)) = true.
Proof.
  unfold detect_num_cols, columns_tolist; simpl. rewrite in_map_iff.
  split; intros (s & H1 & H2).
  - apply filter_In in H2 as [H2 H3]. eauto.
  - destruct H2 as [H2 H3]. exists s. split; auto. apply filter_In. auto.
Qed.

Lemma detect_cat_cols_In (df : DataFrame) (col : string) :
  In col (detect_cat_cols df) <->
  exists s, In s (columns df) /\ name s = col
            /\ is_number (dtype_of (data s)) = false.
Proof.
  unfold detect_cat_cols, columns_tolist; simpl. rewrite in_map_iff.
  split; intros (s & H1 & H2).
  - apply filter_In in H2 as [H2 H3]. apply negb_true_iff in H3. eauto.
  - destruct H2 as [H2 H3]. exists s. split; auto. apply filter_In.
    split; auto. now apply negb_true_iff.
Qed.

Section View.
Variables (df : DataFrame) (spec : FilterSpec) (st : FilterState).
Hypothesis Hrun : apply_filters df spec = Ok st.

Lemma view_restricts : restricts df (df_filtered st).
Proof.
  destruct (apply_filters_shape _ _ Hrun) as (_ & _ & mid & f & Hf & Hv & Hm).
  rewrite Hv. eapply restricts_trans; [|now apply restricts_on_rows].
  destruct Hm as [[_ ->] | [_ Hg]].
  - apply restricts_on_rows, slice_to_natural.
  - eapply restricts_trans; [|eapply restricts_getitem_cols; eauto].
    apply restricts_on_rows, slice_to_natural.
Qed.

Lemma view_covers : covers df (df_filtered st) (selected_cols spec).
Proof.
  destruct (apply_filters_shape _ _ Hrun) as (_ & _ & mid & f & Hf & Hv & Hm).
  rewrite Hv. eapply covers_trans; [|now apply covers_on_rows].
  destruct Hm as [[_ ->] | [Hne Hg]].
  - apply covers_on_rows, slice_to_natural.
  - eapply covers_trans; [|eapply covers_getitem_cols; eauto].
    apply covers_on_rows, slice_to_natural.
Qed.

Lemma view_aligned : aligned df = true -> aligned (df_filtered st) = true.
Proof.
  intros Ha.
  destruct (apply_filters_shape _ _ Hrun) as (_ & _ & mid & f & Hf & Hv & Hm).
  rewrite Hv. apply aligned_on_rows; auto.
  assert (Hh : aligned (head (row_limit spec) df) = true)
    by (apply aligned_on_rows; auto using slice_to_natural).
  destruct Hm as [[_ ->] | [_ Hg]]; auto.
  eapply aligned_getitem_cols; eauto.
Qed.

Lemma view_len :
  (0 <= row_limit spec)%Z ->
  (len (df_filtered st) <= Nat.min (Z.to_nat (row_limit spec)) (len df))%nat.
Proof.
  intros Hn.
  destruct (apply_filters_shape _ _ Hrun) as (_ & _ & mid & f & Hf & Hv & Hm).
  rewrite Hv. unfold len at 1, on_rows; simpl.
  eapply Nat.le_trans; [apply (nat_short Hf)|].
  assert (Hi : index mid = slice_to (row_limit spec) (index df)).
  { destruct Hm as [[_ ->] | [_ Hg]]; [reflexivity|].
    apply getitem_cols_inv in Hg as [-> _]. reflexivity. }
  rewrite Hi, slice_to_length by assumption. apply Nat.le_refl.
Qed.

Lemma view_names :
  distinct (columns_tolist df) = true ->
  columns_tolist (df_filtered st)
  = if truthy (selected_cols spec) then selected_cols spec
    else columns_tolist df.
Proof.
  intros Hd. apply distinct_NoDup in Hd.
  destruct (apply_filters_shape _ _ Hrun) as (_ & _ & mid & f & Hf & Hv & Hm).
  rewrite Hv, columns_tolist_on_rows.
  destruct Hm as [[-> ->] | [Hne Hg]]; simpl.
  - apply columns_tolist_on_rows.
  - destruct (selected_cols spec) as [|c sel] eqn:E; [congruence|]. simpl.
    apply getitem_cols_inv in Hg as [_ Hg].
    apply take_columns_names in Hg; auto.
    change (NoDup (columns_tolist (head (row_limit spec) df))).
    unfold head. now rewrite columns_tolist_on_rows.
Qed.

End View.

(** *** When each stage goes through *)

Lemma column_filter_total (df : DataFrame) (n : Z) (sel : list string) :
  forallb (fun col => str_in col (columns_tolist df)) sel = true ->
  exists st1, column_filter (row_filter df n) sel = Ok st1.
Proof.
  intros Hs. unfold column_filter. destruct (truthy sel); [|eauto].
  simpl. unfold getitem_cols.
  destruct (@take_columns_total (columns (head n df)) sel) as [r Hr].
  - intros col Hc. rewrite forallb_forall in Hs. specialize (Hs col Hc).
    apply str_in_In in Hs.
    change (In col (columns_tolist (head n df))).
    unfold head. now rewrite columns_tolist_on_rows.
  - rewrite Hr. simpl. eauto.
Qed.

Lemma category_filter_total (st1 : FilterState) fc fv :
  (forall col, fc = Some col -> truthy (cat_cols st1) = true ->
     exists s k, getitem (df_filtered st1) col = Ok s
                 /\ of_kind k (cells (data s))) ->
  exists st, category_filter st1 fc fv = Ok st.
Proof.
  intros H. unfold category_filter.
  destruct (truthy (cat_cols st1)) eqn:Ec; [|eauto].
  destruct fc as [col|]; [|eauto].
  destruct (H col eq_refl eq_refl) as (s & k & Hs & Hk).
  rewrite Hs; simpl.
  destruct (sorted_ok (of_kind_incl Hk (@unique_incl s))) as (r & Hr & _).
  rewrite Hr; simpl. destruct (truthy fv); eauto.
Qed.

End ViewFacts.

(* ================================================================== *)
(** * Properties of the filter pipeline *)
(* ================================================================== *)

Module FilterSpecs.
Import Py Pd App Dashboard RowFacts ColumnFacts PipelineFacts SortFacts ViewFacts.
Local Open Scope string_scope.
Local Open Scope list_scope.

Lemma filter_spec_ok_inv (df : DataFrame) (spec : FilterSpec) :
  filter_spec_ok df spec = true ->
  (1 <= row_limit spec)%Z
  /\ NoDup (selected_cols spec)
  /\ forallb (fun col => str_in col (columns_tolist df)) (selected_cols spec)
     = true.
Proof.
  unfold filter_spec_ok. rewrite !andb_true_iff, Z.leb_le, distinct_NoDup.
  tauto.
Qed.

(** The state after the column stage is the result of the pipeline run
    without a category filter. *)
Lemma column_stage_as_run (df : DataFrame) (spec : FilterSpec) st1 :
  column_filter (row_filter df (row_limit spec)) (selected_cols spec) = Ok st1 ->
  apply_filters df
    (mkFilterSpec (row_limit spec) (selected_cols spec) None []) = Ok st1.
Proof.
  intros H. unfold apply_filters; simpl. rewrite H; simpl.
  unfold category_filter. now destruct (truthy (cat_cols st1)).
Qed.

(** A column the category selector offers can be read from the view, and
    its cells are cells of the dataset's column of that name. *)
Lemma offered_column_readable (df : DataFrame) (spec : FilterSpec) st1 col :
  column_filter (row_filter df (row_limit spec)) (selected_cols spec) = Ok st1 ->
  In col (cat_cols st1) ->
  exists s s0,
    getitem (df_filtered st1) col = Ok s
    /\ In s0 (columns df) /\ name s0 = col
    /\ incl (cells (data s)) (cells (data s0)).
Proof.
  intros Hc Hin. apply column_stage_as_run in Hc.
  destruct (apply_filters_shape _ _ Hc) as (_ & Hcat & _). simpl in Hcat.
  rewrite Hcat in Hin. apply narrowed_In in Hin as [Hd Hsel].
  apply detect_cat_cols_In in Hd as (c0 & Hc0 & Hn0 & _).
  destruct (@view_covers _ _ _ Hc c0 Hc0) as (c & Hcin & (Hcn & _)).
  { simpl. now rewrite Hn0. }
  destruct (@getitem_total (df_filtered st1) col) as [s Hs].
  { unfold columns_tolist. apply in_map_iff. exists c. split; congruence. }
  apply getitem_In in Hs as Hs'. destruct Hs' as [Hsin Hsn].
  destruct (@view_restricts _ _ _ Hc s Hsin) as (s0 & Hs0 & (N & _ & I)).
  exists s, s0. repeat split; auto. congruence.
Qed.

(** C1 (amended): on a dataset as the readers deliver it, for a Filter Spec
    the widgets can deliver whose filter column holds cells of one kind, the
    pipeline returns a view; the view has at most
    [min(row_limit, rows of the dataset)] rows; its columns are the included
    columns when some are included, and every column of the dataset when
    none is. *)
Theorem apply_filters_total (df : DataFrame) (spec : FilterSpec) :
  well_formed df = true ->
  filter_spec_ok df spec = true ->
  filter_col_offered df spec = true ->
  filter_col_sortable df spec = true ->
  exists st,
    apply_filters df spec = Ok st
    /\ (len (df_filtered st)
        <= Nat.min (Z.to_nat (row_limit spec)) (len df))%nat
    /\ columns_tolist (df_filtered st)
       = (if truthy (selected_cols spec) then selected_cols spec
          else columns_tolist df).
Proof.
  intros Hwf Hok Hoff Hsort.
  apply andb_true_iff in Hwf as [Hd Ha].
  destruct (@filter_spec_ok_inv _ _ Hok) as (Hn & _ & Hsel).
  destruct (@column_filter_total df (row_limit spec) _ Hsel) as [st1 Hc].
  unfold filter_col_offered in Hoff. rewrite Hc in Hoff.
  destruct (@category_filter_total st1 (filter_col spec) (filter_values spec))
    as [st Hst].
  { intros col Hfc _. rewrite Hfc in Hoff. apply str_in_In in Hoff.
    destruct (@offered_column_readable _ _ _ _ Hc Hoff) as (s & s0 & Hs & H0 & N & I).
    unfold filter_col_sortable in Hsort. rewrite Hfc in Hsort.
    rewrite forallb_forall in Hsort. specialize (Hsort s0 H0).
    apply orb_true_iff in Hsort as [Hne|Hk].
    - apply negb_true_iff in Hne. rewrite N, String.eqb_refl in Hne.
      discriminate.
    - apply same_kind_of_kind in Hk as [k Hk].
      exists s, k. split; auto. eapply of_kind_incl; eauto. }
  assert (Hrun : apply_filters df spec = Ok st).
  { unfold apply_filters. rewrite Hc. exact Hst. }
  exists st. split; [exact Hrun|]. split.
  - apply (@view_len _ _ _ Hrun). lia.
  - now apply (@view_names _ _ _ Hrun).
Qed.

Lemma apply_filters_total_witness :
  exists st,
    apply_filters Samples.sales (Samples.by_region [VStr "South"]) = Ok st
    /\ (len (df_filtered st) <= Nat.min 3 (len Samples.sales))%nat
    /\ columns_tolist (df_filtered st) = ["Region"; "Sales"].
Proof.
  apply (apply_filters_total Samples.sales (Samples.by_region [VStr "South"]));
    reflexivity.
Defined.

(** With no column included the view keeps every column of the dataset: its
    columns are not among the (empty) included columns. *)
Lemma empty_selection_keeps_columns :
  filter_spec_ok Samples.sales Samples.no_filter = true
  /\ exists st,
       apply_filters Samples.sales Samples.no_filter = Ok st
       /\ columns_tolist (df_filtered st) = ["Region"; "Sales"]
       /\ ~ incl (columns_tolist (df_filtered st))
                 (selected_cols Samples.no_filter).
Proof.
  split; [reflexivity|]. eexists. split; [reflexivity|]. split; [reflexivity|].
  intros H. apply (H "Region"). now left.
Qed.

(** C6 (failing input): with Region chosen as the filter column and no
    value selected, the category stage should retain every row.  Region has
    a blank cell, so building the options of the value selector compares
    text with NaN: [sorted] raises [TypeError] before the empty selection is
    looked at, and the pipeline returns no view. *)
Lemma blank_cell_breaks_filter :
  well_formed Samples.blanks = true
  /\ filter_spec_ok Samples.blanks Samples.blanks_by_region = true
  /\ filter_col_offered Samples.blanks Samples.blanks_by_region = true
  /\ filter_values Samples.blanks_by_region = []
  /\ apply_filters Samples.blanks Samples.blanks_by_region = Raise TypeError.
Proof. repeat split. Qed.

End FilterSpecs.

(* ================================================================== *)
(** * Applying the filters to a view again *)
(* ================================================================== *)

Module Idempotence.
Import Py Pd App Dashboard RowFacts ColumnFacts PipelineFacts SortFacts ViewFacts.
Import FilterSpecs.

Lemma py_eq_kind (a b : value) : py_eq a b = true -> kind_of a = kind_of b.
Proof. destruct a, b; simpl; intros H; try discriminate; reflexivity. Qed.

Lemma py_lt_ok_kind (a b : value) r :
  py_lt a b = Ok r -> kind_of a = kind_of b.
Proof. destruct a, b; simpl; intros H; try discriminate; reflexivity. Qed.

Lemma insert_sorted_inv (x : value) (l r : list value) :
  insert_sorted x l = Ok r ->
  (forall a, In a r <-> a = x \/ In a l)
  /\ match l with [] => True | h :: _ => kind_of x = kind_of h end.
Proof.
  revert r; induction l as [|y l IH]; simpl; intros r H.
  - injection H as <-. split; auto. intros a; simpl. intuition.
  - destruct (py_lt x y) as [lt|] eqn:E; simpl in H; [|discriminate].
    apply py_lt_ok_kind in E. split; auto.
    destruct lt.
    + injection H as <-. intros a; simpl. intuition.
    + destruct (insert_sorted x l) as [r'|] eqn:Er; simpl in H;
        [|discriminate].
      injection H as <-. destruct (IH r' eq_refl) as [Hin _].
      intros a; simpl. rewrite Hin. intuition.
Qed.

(** Where [sorted] returns, the cells it was given are of one kind. *)
Lemma sorted_inv (l r : list value) :
  sorted l = Ok r ->
  (forall a, In a r <-> In a l)
  /\ (forall a b, In a l -> In b l -> kind_of a = kind_of b).
Proof.
  revert r; induction l as [|x l IH]; simpl; intros r H.
  - injection H as <-. split; [tauto | contradiction].
  - destruct (sorted l) as [r'|] eqn:Er; simpl in H; [|discriminate].
    destruct (IH r' eq_refl) as [Hin Hk].
    apply insert_sorted_inv in H as [Hin' Hh]. split.
    + intros a. rewrite Hin', Hin. simpl. intuition.
    + assert (Hx : forall b, In b l -> kind_of x = kind_of b).
      { intros b Hb. destruct r' as [|h r'']; [apply Hin in Hb; contradiction|].
        rewrite Hh. apply Hk; auto. apply Hin. now left. }
      intros a b [<-|Ha] [<-|Hb]; auto. symmetry; auto.
Qed.

Lemma fold_add_key_represents (l seen : list value) (v : value) :
  (In v l \/ exists u, In u seen /\ py_eq v u = true) ->
  exists u, In u (fold_left add_key l seen) /\ py_eq v u = true.
Proof.
  revert seen; induction l as [|x l IH]; simpl; intros seen [Hv|Hv];
    try contradiction; auto.
  - apply IH. destruct Hv as [<-|Hv]; auto. right. unfold add_key.
    destruct (existsb (py_eq x) seen) eqn:E.
    + apply existsb_exists in E. exact E.
    + exists x. split; [apply in_or_app; right; now left|].
      apply KeyFacts.py_eq_reflexive.
  - apply IH. right. destruct Hv as (u & Hu & E). exists u. split; auto.
    unfold add_key. destruct (existsb (py_eq x) seen); auto.
    apply in_or_app; now left.
Qed.

Lemma unique_represents (s : Series) (v : value) :
  In v (cells (data s)) -> exists u, In u (unique s) /\ py_eq v u = true.
Proof. intros H. apply fold_add_key_represents. now left. Qed.

(** Where the options of a column can be sorted, all its cells are of one
    kind. *)
Lemma sortable_of_kind (s : Series) (r : list value) :
  sorted (unique s) = Ok r -> exists k, of_kind k (cells (data s)).
Proof.
  intros H. apply sorted_inv in H as [_ Hk].
  destruct (cells (data s)) as [|c cs] eqn:E.
  - exists KStr. constructor.
  - exists (kind_of c). apply Forall_forall. intros v Hv.
    rewrite <- E in Hv.
    destruct (unique_represents s v Hv) as (u & Hu & Eu).
    destruct (unique_represents s c) as (u' & Hu' & Eu');
      [rewrite E; now left|].
    apply py_eq_kind in Eu, Eu'. rewrite Eu, Eu'. now apply Hk.
Qed.

Lemma labelled_on_rows f (label : string) (cols : list Series) :
  labelled label (map (fun s => mkSeries (name s) (map_rows f (data s))) cols)
  = map (fun s => mkSeries (name s) (map_rows f (data s))) (labelled label cols).
Proof.
  unfold labelled. induction cols as [|c cols IH]; simpl; auto.
  destruct (String.eqb (name c) label); simpl; now rewrite IH.
Qed.

Lemma getitem_on_rows f (df : DataFrame) (label : string) :
  getitem (on_rows f df) label
  = (s <- getitem df label ;; Ok (mkSeries (name s) (map_rows f (data s)))).
Proof.
  unfold getitem, on_rows; simpl. rewrite labelled_on_rows.
  now destruct (labelled label (columns df)).
Qed.

(** Cutting a view to its own length again changes nothing. *)
Lemma head_fixed (n : Z) (v : DataFrame) :
  aligned v = true -> (0 <= n)%Z -> (len v <= Z.to_nat n)%nat -> head n v = v.
Proof.
  intros Ha Hn Hl. unfold head. apply on_rows_fixed; auto.
  intros A l E. apply slice_to_all; auto. lia.
Qed.

(** Asking a view for exactly its columns changes nothing. *)
Lemma getitem_cols_fixed (v : DataFrame) :
  NoDup (columns_tolist v) -> getitem_cols v (columns_tolist v) = Ok v.
Proof.
  intros Hnd. unfold getitem_cols, columns_tolist.
  pose proof (take_columns_self [] (columns v) Hnd) as H. simpl in H.
  rewrite H. simpl. now destruct v.
Qed.

(** Masking a column by a test its rows already pass changes nothing. *)
Lemma isin_fixed (mid : DataFrame) (s : Series) (fv : list value) :
  aligned mid = true ->
  In s (columns mid) ->
  let v := getitem_mask mid (isin s fv) in
  let s' := mkSeries (name s) (map_rows (compress (isin s fv)) (data s)) in
  getitem_mask v (isin s' fv) = v.
Proof.
  intros Ha Hs v s'.
  assert (Hav : aligned v = true)
    by (apply aligned_on_rows; auto using compress_natural).
  unfold getitem_mask. apply on_rows_fixed; auto.
  intros A l E. apply compress_all.
  - unfold isin, s'; simpl. rewrite cells_map_rows by apply compress_natural.
    apply (compress_by_test (fun c => existsb (py_eq c) fv)).
  - unfold isin, s'; simpl. rewrite length_map.
    rewrite cells_map_rows by apply compress_natural.
    rewrite E. unfold v, getitem_mask, len, on_rows; simpl.
    apply Nat.eq_le_incl. apply compress_length_eq.
    unfold aligned in Ha. rewrite forallb_forall in Ha.
    specialize (Ha s Hs). apply Nat.eqb_eq in Ha. now rewrite Ha.
Qed.

(** The column stage of a second run returns the view it is given. *)
Lemma column_stage_again (df : DataFrame) (spec : FilterSpec) st :
  well_formed df = true ->
  filter_spec_ok df spec = true ->
  apply_filters df spec = Ok st ->
  exists st1',
    column_filter (row_filter (df_filtered st) (row_limit spec))
                  (selected_cols spec) = Ok st1'
    /\ df_filtered st1' = df_filtered st
    /\ cat_cols st1'
       = narrowed (selected_cols spec) (detect_cat_cols (df_filtered st)).
Proof.
  intros Hwf Hok Hrun. apply andb_true_iff in Hwf as [Hd Ha].
  destruct (@filter_spec_ok_inv _ _ Hok) as (Hn & Hnd & _).
  pose proof (@view_aligned _ _ _ Hrun Ha) as Hav.
  pose proof (@view_names _ _ _ Hrun Hd) as Hnames.
  assert (Hlen : (len (df_filtered st) <= Z.to_nat (row_limit spec))%nat).
  { pose proof (@view_len _ _ _ Hrun). lia. }
  unfold column_filter, row_filter; simpl.
  rewrite (@head_fixed _ _ Hav) by (auto; lia).
  unfold narrowed. destruct (selected_cols spec) as [|c sel] eqn:E; simpl.
  - eauto.
  - simpl in Hnames. rewrite <- Hnames.
    rewrite getitem_cols_fixed by (rewrite Hnames; exact Hnd).
    simpl. eexists. repeat split.
Qed.

(** A second run of the pipeline on its own view returns that view. *)
Lemma apply_filters_again (df : DataFrame) (spec : FilterSpec) st :
  well_formed df = true ->
  filter_spec_ok df spec = true ->
  apply_filters df spec = Ok st ->
  exists st',
    apply_filters (df_filtered st) spec = Ok st'
    /\ df_filtered st' = df_filtered st.
Proof.
  intros Hwf Hok Hrun.
  destruct (@column_stage_again _ _ _ Hwf Hok Hrun) as (st1' & Hc' & Hv' & Hcat').
  unfold apply_filters at 1. rewrite Hc'; simpl.
  unfold category_filter.
  destruct (truthy (cat_cols st1')) eqn:Et'; [|eauto].
  destruct (filter_col spec) as [col|] eqn:Efc; [|eauto].
  (* the first run drew the category selector too *)
  destruct (@apply_filters_inv _ _ _ Hrun) as (st1 & Hc & Hf).
  pose proof (@column_stage_as_run _ _ _ Hc) as Hrun1.
  destruct (@apply_filters_shape _ _ _ Hrun1) as (_ & Hcat1 & _); simpl in Hcat1.
  assert (Et : truthy (cat_cols st1) = true).
  { assert (Hex : exists c', In c' (cat_cols st1')).
    { destruct (cat_cols st1'); [discriminate | eexists; now left]. }
    destruct Hex as [c' Hin]. rewrite Hcat' in Hin.
    apply narrowed_In in Hin as [Hdet Hsel].
    apply detect_cat_cols_In in Hdet as (s & Hs & Hname & Hdt).
    destruct (@view_restricts _ _ _ Hrun s Hs) as (s0 & Hs0 & (N & D & _)).
    assert (Hin1 : In c' (cat_cols st1)).
    { rewrite Hcat1. apply narrowed_In. split; auto.
      apply detect_cat_cols_In. exists s0. repeat split; congruence. }
    destruct (cat_cols st1); [contradiction | reflexivity]. }
  apply andb_true_iff in Hwf as [Hd Ha].
  pose proof (@view_aligned _ _ _ Hrun1 Ha) as Hamid.
  unfold category_filter in Hf. rewrite Et, Efc in Hf.
  destruct (getitem (df_filtered st1) col) as [s|] eqn:Es; simpl in Hf;
    [|discriminate].
  destruct (sorted (unique s)) as [options|] eqn:Eo; simpl in Hf;
    [|discriminate].
  destruct (filter_values spec) as [|x fv] eqn:Efv; simpl in Hf.
  - injection Hf as <-. rewrite Hv', Es; simpl. rewrite Eo; simpl. eauto.
  - injection Hf as <-. simpl in *. rewrite Hv'. unfold getitem_mask.
    rewrite getitem_on_rows, Es; simpl.
    destruct (@sortable_of_kind _ _ Eo) as [k Hk].
    set (s' := mkSeries (name s)
                 (map_rows (compress (isin s (x :: fv))) (data s))).
    assert (Hk' : of_kind k (unique s')).
    { eapply of_kind_incl; [exact Hk|].
      eapply incl_tran; [apply unique_incl|]. unfold s'; simpl.
      rewrite cells_map_rows by apply compress_natural.
      apply compress_incl. }
    destruct (@sorted_ok _ _ Hk') as (r & Hr & _). rewrite Hr; simpl.
    eexists. split; [reflexivity|]. simpl.
    apply getitem_In in Es as [Hsin _].
    exact (@isin_fixed _ _ (x :: fv) Hamid Hsin).
Qed.

(** C7: applying the same Filter Spec to the view it produced yields that
    view again. *)
Theorem view_idempotent (df : DataFrame) (spec : FilterSpec) :
  well_formed df = true ->
  filter_spec_ok df spec = true ->
  (v <- view df spec ;; view v spec) = view df spec.
Proof.
  intros Hwf Hok. unfold view at 1 3.
  destruct (apply_filters df spec) as [st|e] eqn:Hrun; simpl; [|reflexivity].
  destruct (@apply_filters_again _ _ _ Hwf Hok Hrun) as (st' & H' & Hv).
  unfold view. rewrite H'. simpl. now rewrite Hv.
Qed.

Lemma view_idempotent_witness :
  (v <- view Samples.sales (Samples.by_region [VStr "South"]) ;;
   view v (Samples.by_region [VStr "South"]))
  = view Samples.sales (Samples.by_region [VStr "South"]).
Proof.
  apply (view_idempotent Samples.sales (Samples.by_region [VStr "South"]));
    reflexivity.
Defined.

End Idempotence.

(* ================================================================== *)
(** * Column classification *)
(* ================================================================== *)

Module Classification.
Import Py Pd App Dashboard RowFacts ColumnFacts PipelineFacts ViewFacts.
Local Open Scope string_scope.
Local Open Scope list_scope.

Lemma NoDup_names_inj (cols : list Series) (a b : Series) :
  NoDup (map name cols) -> In a cols -> In b cols -> name a = name b -> a = b.
Proof.
  induction cols as [|c cols IH]; simpl; intros Hnd Ha Hb E; [contradiction|].
  inversion Hnd as [|? ? Hc Hrest]; subst.
  destruct Ha as [->|Ha], Hb as [->|Hb]; auto.
  - exfalso. apply Hc. rewrite E. now apply in_map.
  - exfalso. apply Hc. rewrite <- E. now apply in_map.
Qed.

Lemma detected_disjoint (df : DataFrame) (col : string) :
  distinct (columns_tolist df) = true ->
  ~ (In col (detect_num_cols df) /\ In col (detect_cat_cols df)).
Proof.
  intros Hd [Hn Hc]. apply distinct_NoDup in Hd.
  apply detect_num_cols_In in Hn as (a & Ha & Na & Da).
  apply detect_cat_cols_In in Hc as (b & Hb & Nb & Db).
  assert (a = b) by (eapply NoDup_names_inj; eauto; congruence).
  subst. congruence.
Qed.

(** Two lists that name the number columns and the other columns of a
    frame, and share no name, classify it. *)
Lemma classified_intro (d : DataFrame) (nums cats : list string) :
  (forall col, In col nums <->
     exists s, In s (columns d) /\ name s = col
               /\ is_number (dtype_of (data s)) = true) ->
  (forall col, In col cats <->
     exists s, In s (columns d) /\ name s = col
               /\ is_number (dtype_of (data s)) = false) ->
  (forall col, ~ (In col nums /\ In col cats)) ->
  classified d nums cats.
Proof.
  intros Hn Hc Hd. split; [exact Hn|]. split; [exact Hc|]. split; [|exact Hd].
  intros col. split.
  - intros Hin. unfold columns_tolist in Hin.
    apply in_map_iff in Hin as (s & Hs & Hin).
    destruct (is_number (dtype_of (data s))) eqn:E.
    + left. apply Hn. eauto.
    + right. apply Hc. eauto.
  - intros [H|H]; [apply Hn in H | apply Hc in H];
      destruct H as (s & Hs & <- & _); now apply in_map.
Qed.

Section ViewLists.
Variables (df : DataFrame) (spec : FilterSpec) (st : FilterState).
Hypothesis Hd : distinct (columns_tolist df) = true.
Hypothesis Hrun : apply_filters df spec = Ok st.

Lemma view_column_selected (s : Series) :
  In s (columns (df_filtered st)) ->
  selected_cols spec = [] \/ In (name s) (selected_cols spec).
Proof.
  intros Hs. pose proof (@view_names _ _ _ Hrun Hd) as Hnames.
  destruct (selected_cols spec) as [|c sel] eqn:E; auto.
  right. simpl in Hnames. rewrite <- Hnames. now apply in_map.
Qed.

(** [num_cols] names the number columns of the view. *)
Lemma view_num_cols_In (col : string) :
  In col (num_cols st) <->
  exists s, In s (columns (df_filtered st)) /\ name s = col
            /\ is_number (dtype_of (data s)) = true.
Proof.
  destruct (@apply_filters_shape _ _ _ Hrun) as (Hnum & _ & _).
  rewrite Hnum, narrowed_In, detect_num_cols_In. split.
  - intros [(s0 & Hs0 & N0 & D0) Hs].
    destruct (@view_covers _ _ _ Hrun s0 Hs0) as (s & Hin & (N & D & _)).
    { now rewrite N0. }
    exists s. repeat split; congruence.
  - intros (s & Hs & N & D).
    split; [|rewrite <- N; now apply view_column_selected].
    destruct (@view_restricts _ _ _ Hrun s Hs) as (s0 & Hs0 & (N0 & D0 & _)).
    exists s0. repeat split; congruence.
Qed.

(** [cat_cols] names every other column of the view. *)
Lemma view_cat_cols_In (col : string) :
  In col (cat_cols st) <->
  exists s, In s (columns (df_filtered st)) /\ name s = col
            /\ is_number (dtype_of (data s)) = false.
Proof.
  destruct (@apply_filters_shape _ _ _ Hrun) as (_ & Hcat & _).
  rewrite Hcat, narrowed_In, detect_cat_cols_In. split.
  - intros [(s0 & Hs0 & N0 & D0) Hs].
    destruct (@view_covers _ _ _ Hrun s0 Hs0) as (s & Hin & (N & D & _)).
    { now rewrite N0. }
    exists s. repeat split; congruence.
  - intros (s & Hs & N & D).
    split; [|rewrite <- N; now apply view_column_selected].
    destruct (@view_restricts _ _ _ Hrun s Hs) as (s0 & Hs0 & (N0 & D0 & _)).
    exists s0. repeat split; congruence.
Qed.

Lemma view_lists_disjoint (col : string) :
  ~ (In col (num_cols st) /\ In col (cat_cols st)).
Proof.
  destruct (@apply_filters_shape _ _ _ Hrun) as (Hnum & Hcat & _).
  intros [Hn Hc]. rewrite Hnum in Hn. rewrite Hcat in Hc.
  apply narrowed_In in Hn as [Hn _]. apply narrowed_In in Hc as [Hc _].
  now apply (@detected_disjoint df col).
Qed.

End ViewLists.

(** C9: the numeric and the categorical column lists partition the active
    columns, numeric being the columns of a number dtype and categorical
    every other column, both as first detected and after the filters have
    narrowed the columns. *)
Theorem columns_classified (df : DataFrame) :
  well_formed df = true ->
  classified df (detect_num_cols df) (detect_cat_cols df)
  /\ forall spec st,
       apply_filters df spec = Ok st ->
       classified (df_filtered st) (num_cols st) (cat_cols st).
Proof.
  intros Hwf. apply andb_true_iff in Hwf as [Hd _]. split.
  - apply classified_intro.
    + apply detect_num_cols_In.
    + apply detect_cat_cols_In.
    + intros col. now apply detected_disjoint.
  - intros spec st Hrun. apply classified_intro.
    + intros col. exact (@view_num_cols_In _ _ _ Hd Hrun col).
    + intros col. exact (@view_cat_cols_In _ _ _ Hd Hrun col).
    + intros col. exact (@view_lists_disjoint _ _ _ Hd Hrun col).
Qed.

Lemma columns_classified_witness :
  classified Samples.sales ["Sales"] ["Region"]
  /\ forall spec st,
       apply_filters Samples.sales spec = Ok st ->
       classified (df_filtered st) (num_cols st) (cat_cols st).
Proof. apply (columns_classified Samples.sales). reflexivity. Defined.

End Classification.

(* ================================================================== *)
(** * Chart dispatch: the axis checks *)
(* ================================================================== *)

Module DispatchSpecs.
Import Py Pd App Dashboard ColumnFacts ViewFacts Classification.
Local Open Scope string_scope.
Local Open Scope list_scope.

(** What the chart tab shows for a validation failure: the warning, and the
    run goes on. *)
Lemma chart_tab_failure (st : FilterState) (req : ChartRequest) (msg : string) :
  dispatch st req = Ok (Failure msg) -> msg <> "" ->
  forall px log,
    exists hint,
      chart_tab px st req log
      = (log ++ [st_info hint; st_warning msg], Next tt).
Proof.
  intros H Hne px log. unfold chart_tab, try_except, seq_, call, emit.
  rewrite H. unfold Failure. destruct (String.eqb msg "") eqn:E.
  - apply String.eqb_eq in E. contradiction.
  - eexists. simpl. rewrite <- app_assoc. reflexivity.
Qed.

(** C2: for each chart kind that needs a numeric Y, a request without a Y
    gets a Failure result, returned as a value: nothing is raised, plotly
    express is not called, the chart tab shows the message as a warning and
    the run goes on. *)
Theorem missing_y_is_failure (st : FilterState) (req : ChartRequest) :
  needs_numeric_y (chart_type req) = true ->
  y_axis req = None ->
  exists msg,
    dispatch st req = Ok (Failure msg)
    /\ forall px log,
         exists hint,
           chart_tab px st req log
           = (log ++ [st_info hint; st_warning msg], Next tt).
Proof.
  intros Hk Hy.
  assert (H : exists msg, dispatch st req = Ok (Failure msg) /\ msg <> "").
  { destruct req as [k x y g]; simpl in *. subst y. unfold dispatch; simpl.
    destruct k; try discriminate;
      try (exists select_y_msg; split; [reflexivity | discriminate]).
    exists sunburst_msg. rewrite orb_true_r.
    split; [reflexivity | discriminate]. }
  destruct H as (msg & Hd & Hne). exists msg. split; auto.
  now apply chart_tab_failure.
Qed.

Lemma missing_y_is_failure_witness :
  exists msg,
    dispatch Samples.sales_view (mkChartRequest Bar "Region" None None)
    = Ok (Failure msg)
    /\ forall px log,
         exists hint,
           chart_tab px Samples.sales_view
             (mkChartRequest Bar "Region" None None) log
           = (log ++ [st_info hint; st_warning msg], Next tt).
Proof.
  apply (missing_y_is_failure Samples.sales_view
           (mkChartRequest Bar "Region" None None)); reflexivity.
Defined.

Lemma scatter_msg_names_x (x : string) : names_column (scatter_msg x) x.
Proof.
  exists "⚠️ X axis ", " is not numeric. Scatter needs numeric X & Y".
  reflexivity.
Qed.

(** C3: a Scatter request with a categorical X and a numeric Y gets a
    Failure result whose message quotes the X column. *)
Theorem scatter_categorical_x (df : DataFrame) (spec : FilterSpec)
    (st : FilterState) (req : ChartRequest) (y : string) :
  well_formed df = true ->
  apply_filters df spec = Ok st ->
  chart_type req = Scatter ->
  In (x_axis req) (cat_cols st) ->
  y_axis req = Some y -> In y (num_cols st) ->
  dispatch st req = Ok (Failure (scatter_msg (x_axis req)))
  /\ names_column (scatter_msg (x_axis req)) (x_axis req).
Proof.
  intros Hwf Hrun Hk Hx Hy _. apply andb_true_iff in Hwf as [Hd _].
  split; [|apply scatter_msg_names_x].
  destruct req as [k x y' g]; simpl in *. subst k y'. unfold dispatch; simpl.
  destruct (str_in x (num_cols st)) eqn:E; [|reflexivity].
  apply str_in_In in E. exfalso.
  apply (@view_lists_disjoint _ _ _ Hd Hrun x). auto.
Qed.

Lemma scatter_categorical_x_witness :
  dispatch Samples.sales_view
    (mkChartRequest Scatter "Region" (Some "Sales") None)
  = Ok (Failure (scatter_msg "Region"))
  /\ names_column (scatter_msg "Region") "Region".
Proof.
  apply (@scatter_categorical_x Samples.sales Samples.no_filter
           Samples.sales_view
           (mkChartRequest Scatter "Region" (Some "Sales") None) "Sales");
    try reflexivity; simpl; auto.
Defined.

Lemma y_options_In (st : FilterState) (y : option string) :
  selectbox_returns (y_options st) y ->
  y = None \/ exists col, y = Some col /\ In col (num_cols st).
Proof.
  unfold selectbox_returns, y_options.
  destruct (truthy (num_cols st)); simpl.
  - intros [<-|H]; auto. apply in_map_iff in H as (col & <- & Hc). eauto.
  - intros [<-|[]]. auto.
Qed.

(** C10: the Y selector offers [None] and the current numeric columns, so
    the Y a request carries is [None] or names a column of the view with a
    number dtype; hence a Bar, Line or Area chart, whose branches only test
    that Y is present, is always built over a numeric Y. *)
Theorem y_axis_is_numeric (df : DataFrame) (spec : FilterSpec)
    (st : FilterState) (req : ChartRequest) :
  well_formed df = true ->
  apply_filters df spec = Ok st ->
  selectbox_returns (y_options st) (y_axis req) ->
  (y_axis req = None
   \/ exists col s,
        y_axis req = Some col /\ In col (num_cols st)
        /\ In s (columns (df_filtered st)) /\ name s = col
        /\ is_number (dtype_of (data s)) = true)
  /\ forall fig,
       In (chart_type req) [Bar; Line; Area] ->
       dispatch st req = Ok (Success fig) ->
       exists col s,
         Px.figure_y fig = Some col /\ In col (num_cols st)
         /\ In s (columns (df_filtered st)) /\ name s = col
         /\ is_number (dtype_of (data s)) = true.
Proof.
  intros Hwf Hrun Hsel. apply andb_true_iff in Hwf as [Hd _].
  assert (Hy : y_axis req = None
               \/ exists col s,
                    y_axis req = Some col /\ In col (num_cols st)
                    /\ In s (columns (df_filtered st)) /\ name s = col
                    /\ is_number (dtype_of (data s)) = true).
  { destruct (y_options_In _ _ Hsel) as [Hn|(col & Hc & Hin)]; auto.
    right. apply (@view_num_cols_In _ _ _ Hd Hrun) in Hin as Hs.
    destruct Hs as (s & Hs & N & D). exists col, s. auto. }
  split; [exact Hy|].
  intros fig Hk Hfig. destruct req as [k x y g]; simpl in *.
  unfold dispatch in Hfig; simpl in Hfig.
  destruct Hy as [->|(col & s & -> & Hin & Hs & N & D)].
  - destruct Hk as [<-|[<-|[<-|[]]]]; discriminate.
  - exists col, s.
    destruct Hk as [<-|[<-|[<-|[]]]]; injection Hfig as <-; simpl; auto.
Qed.

Lemma y_axis_is_numeric_witness :
  (Some "Sales" = None
   \/ exists col s,
        Some "Sales" = Some col /\ In col ["Sales"]
        /\ In s (columns Samples.sales) /\ name s = col
        /\ is_number (dtype_of (data s)) = true)
  /\ forall fig,
       In Bar [Bar; Line; Area] ->
       dispatch Samples.sales_view
         (mkChartRequest Bar "Region" (Some "Sales") None) = Ok (Success fig) ->
       exists col s,
         Px.figure_y fig = Some col /\ In col ["Sales"]
         /\ In s (columns Samples.sales) /\ name s = col
         /\ is_number (dtype_of (data s)) = true.
Proof.
  apply (@y_axis_is_numeric Samples.sales Samples.no_filter Samples.sales_view
           (mkChartRequest Bar "Region" (Some "Sales") None));
    try reflexivity.
  unfold selectbox_returns; simpl; auto.
Defined.

End DispatchSpecs.

(* ================================================================== *)
(** * Pie and Donut: group counts *)
(* ================================================================== *)

Module GroupSpecs.
Import Py Pd App Dashboard ColumnFacts PipelineFacts ViewFacts Classification.
Local Open Scope string_scope.
Local Open Scope list_scope.
















(** ** One group per distinct value, counting its cells *)













Lemma positive_sum_nonempty (l : list nat) :
  Forall (fun c => 1 <= c) l -> (list_sum l = 0 <-> l = []).
Proof.
  destruct l as [|c l]; simpl; intros H; [tauto|].
  inversion H; subst. split; [lia | discriminate].
Qed.






(** On the Region / Sales dataset the groups are North: 2 and South: 1. *)
Example pie_of_sales :
  dispatch Samples.sales_view (mkChartRequest Donut "Region" None None)
  = Ok (Success (Px.pie [2; 1] [VStr "North"; VStr "South"]
                   (Some 0x1.3333333333333p-2%float)
                   "Distribution of Region")).
Proof. reflexivity. Qed.

End GroupSpecs.

(* ================================================================== *)
(** * Heatmap: the correlation table *)
(* ================================================================== *)

Module HeatmapSpecs.
Import Py Pd App Dashboard ColumnFacts PipelineFacts ViewFacts Classification.
Import FilterSpecs.
Local Open Scope string_scope.
Local Open Scope list_scope.

Lemma to_float_arrays_ok (cols : list Series) :
  Forall (fun s => is_number (dtype_of (data s)) = true) cols ->
  exists mat, to_float_arrays cols = Ok mat
              /\ List.length mat = List.length cols.
Proof.
  induction cols as [|s cols IH]; simpl; intros H.
  - exists []. auto.
  - inversion H as [|? ? Hs Hc]; subst.
    destruct (IH Hc) as (mat & Hm & Hl).
    assert (Ha : exists a, to_float_array s = Ok a).
    { unfold to_float_array. destruct (data s); simpl in Hs;
        try discriminate; eauto. }
    destruct Ha as [a Ha]. rewrite Ha; simpl. rewrite Hm; simpl.
    eexists. split; [reflexivity|]. simpl. now rewrite Hl.
Qed.

Lemma nth_map_seq {A} (f : nat -> A) (K i : nat) (d : A) :
  i < K -> nth i (map f (seq 0 K)) d = f i.
Proof.
  intros Hi. rewrite (nth_indep _ d (f 0)) by (rewrite length_map, length_seq; lia).
  rewrite map_nth, seq_nth by lia. reflexivity.
Qed.

Lemma corr_entry_sym (mat : list (list float)) (i j : nat) :
  corr_entry mat i j = corr_entry mat j i.
Proof.
  unfold corr_entry.
  destruct (j <=? i)%nat eqn:E1, (i <=? j)%nat eqn:E2; auto.
  - apply Nat.leb_le in E1, E2. assert (i = j) by lia. now subst.
  - apply Nat.leb_gt in E1, E2. lia.
Qed.

(** The table [corr] returns: labelled by the columns, square, symmetric. *)
Lemma corr_table (d : DataFrame) (m : CorrMatrix) :
  corr d = Ok m ->
  let K := List.length (columns d) in
  labels m = columns_tolist d
  /\ List.length (entries m) = K
  /\ (forall row, In row (entries m) -> List.length row = K)
  /\ (forall i j, i < K -> j < K ->
        nth j (nth i (entries m) []) nan = nth i (nth j (entries m) []) nan).
Proof.
  unfold corr. destruct (to_float_arrays (columns d)) as [mat|] eqn:E;
    simpl; [|discriminate].
  intros H; injection H as <-. simpl.
  assert (Hl : List.length mat = List.length (columns d)).
  { clear -E. revert mat E. induction (columns d) as [|s cols IH]; simpl;
      intros mat E.
    - now injection E as <-.
    - destruct (to_float_array s); simpl in E; [|discriminate].
      destruct (to_float_arrays cols) as [m'|]; simpl in E; [|discriminate].
      injection E as <-. simpl. now rewrite (IH m' eq_refl). }
  rewrite Hl. repeat split.
  - now rewrite length_map, length_seq.
  - intros row Hr. apply in_map_iff in Hr as (i & <- & _).
    now rewrite length_map, length_seq.
  - intros i j Hi Hj.
    rewrite (nth_map_seq _ [] Hi), (nth_map_seq _ [] Hj).
    rewrite (nth_map_seq _ nan Hi), (nth_map_seq _ nan Hj).
    apply corr_entry_sym.
Qed.

Section NumericColumns.
Variables (df : DataFrame) (spec : FilterSpec) (st : FilterState).
Hypothesis Hwf : well_formed df = true.
Hypothesis Hok : filter_spec_ok df spec = true.
Hypothesis Hrun : apply_filters df spec = Ok st.

Lemma view_names_NoDup : NoDup (columns_tolist (df_filtered st)).
Proof.
  apply andb_true_iff in Hwf as [Hd _].
  destruct (@filter_spec_ok_inv _ _ Hok) as (_ & Hnd & _).
  rewrite (@view_names _ _ _ Hrun Hd).
  destruct (truthy (selected_cols spec)); auto. now apply distinct_NoDup.
Qed.

(** [df_filtered[num_cols]] is the view's number columns, in the order of
    [num_cols]. *)
Lemma numeric_columns :
  exists numeric,
    getitem_cols (df_filtered st) (num_cols st) = Ok numeric
    /\ columns_tolist numeric = num_cols st
    /\ Forall (fun s => is_number (dtype_of (data s)) = true)
              (columns numeric).
Proof.
  apply andb_true_iff in Hwf as Hwf'. destruct Hwf' as [Hd _].
  pose proof view_names_NoDup as Hnd.
  destruct (@take_columns_total (columns (df_filtered st)) (num_cols st))
    as [cols Hcols].
  { intros col Hc. apply (@view_num_cols_In _ _ _ Hd Hrun) in Hc.
    destruct Hc as (s & Hs & <- & _). now apply in_map. }
  unfold getitem_cols. rewrite Hcols; simpl. eexists. split; [reflexivity|].
  split; simpl.
  - eapply take_columns_names; eauto.
  - apply Forall_forall. intros s Hs.
    destruct (take_columns_In _ _ Hcols s Hs) as [Hin Hname].
    apply (@view_num_cols_In _ _ _ Hd Hrun) in Hname.
    destruct Hname as (s' & Hs' & N & D).
    assert (s' = s) by (eapply NoDup_names_inj; eauto).
    now subst.
Qed.

End NumericColumns.

(** C4 (amended): with fewer than 2 numeric columns a Heatmap request gets a
    Failure result; with at least 2 it gets the pairwise Pearson table of all
    current numeric columns, whatever X and Y are: labelled by the numeric
    columns on both axes, square and symmetric, hence 2 x 2 over [A, B] when
    these are the numeric columns.  Nothing is promised of the diagonal. *)
Theorem heatmap_correlates_numeric_columns (df : DataFrame)
    (spec : FilterSpec) (st : FilterState) :
  well_formed df = true ->
  filter_spec_ok df spec = true ->
  apply_filters df spec = Ok st ->
  let K := List.length (num_cols st) in
  (K < 2 ->
   forall req, chart_type req = Heatmap ->
     dispatch st req = Ok (Failure heatmap_msg))
  /\ (2 <= K ->
      exists numeric m,
        getitem_cols (df_filtered st) (num_cols st) = Ok numeric
        /\ corr numeric = Ok m
        /\ (forall req, chart_type req = Heatmap ->
              dispatch st req = Ok (Success (Px.imshow m)))
        /\ labels m = num_cols st
        /\ List.length (entries m) = K
        /\ (forall row, In row (entries m) -> List.length row = K)
        /\ (forall i j, i < K -> j < K ->
              nth j (nth i (entries m) []) nan
              = nth i (nth j (entries m) []) nan)
        /\ (forall A B, num_cols st = [A; B] ->
              labels m = [A; B]
              /\ exists aa ab bb, entries m = [[aa; ab]; [ab; bb]])).
Proof.
  intros Hwf Hok Hrun K. split.
  - intros HK req Hk. destruct req as [k x y g]; simpl in *. subst k.
    unfold dispatch; simpl. fold K.
    destruct (K <? 2)%nat eqn:E; [reflexivity|].
    apply Nat.ltb_ge in E. lia.
  - intros HK.
    destruct (@numeric_columns _ _ _ Hwf Hok Hrun) as (numeric & Hg & Hn & Hnum).
    destruct (@to_float_arrays_ok _ Hnum) as (mat & Hmat & _).
    assert (Hm : exists m, corr numeric = Ok m).
    { unfold corr. rewrite Hmat. simpl. eauto. }
    destruct Hm as [m Hm].
    destruct (@corr_table _ _ Hm) as (Hl & Hrows & Hrow & Hsym).
    assert (HK' : List.length (columns numeric) = K).
    { unfold K. rewrite <- Hn. unfold columns_tolist. now rewrite length_map. }
    rewrite HK' in *. rewrite Hn in Hl.
    exists numeric, m. repeat split; auto.
    + intros req Hk. destruct req as [k x y g]; simpl in *. subst k.
      unfold dispatch; simpl. fold K.
      destruct (K <? 2)%nat eqn:E; [apply Nat.ltb_lt in E; lia|].
      rewrite Hg; simpl. rewrite Hm; simpl. reflexivity.
    + congruence.
    + assert (E2 : K = 2) by (unfold K; rewrite H; reflexivity).
      rewrite E2 in *.
      destruct (entries m) as [|r0 [|r1 [|r2 rest]]] eqn:Em;
        simpl in Hrows; try discriminate.
      assert (H0 : List.length r0 = 2) by (apply Hrow; now left).
      assert (H1 : List.length r1 = 2) by (apply Hrow; right; now left).
      destruct r0 as [|aa [|ab [|? ?]]]; try discriminate.
      destruct r1 as [|ba [|bb [|? ?]]]; try discriminate.
      exists aa, ab, bb.
      specialize (Hsym 0 1 ltac:(lia) ltac:(lia)). simpl in Hsym.
      now subst.
Qed.

Lemma heatmap_correlates_numeric_columns_witness :
  let K := 2 in
  (K < 2 ->
   forall req, chart_type req = Heatmap ->
     dispatch Samples.blanks_view req = Ok (Failure heatmap_msg))
  /\ (2 <= K ->
      exists numeric m,
        getitem_cols Samples.blanks ["Sales"; "Stock"] = Ok numeric
        /\ corr numeric = Ok m
        /\ (forall req, chart_type req = Heatmap ->
              dispatch Samples.blanks_view req = Ok (Success (Px.imshow m)))
        /\ labels m = ["Sales"; "Stock"]
        /\ List.length (entries m) = K
        /\ (forall row, In row (entries m) -> List.length row = K)
        /\ (forall i j, i < K -> j < K ->
              nth j (nth i (entries m) []) nan
              = nth i (nth j (entries m) []) nan)
        /\ (forall A B, ["Sales"; "Stock"] = [A; B] ->
              labels m = [A; B]
              /\ exists aa ab bb, entries m = [[aa; ab]; [ab; bb]])).
Proof.
  apply (@heatmap_correlates_numeric_columns Samples.blanks
           Samples.blanks_default Samples.blanks_view); reflexivity.
Defined.

(** Sales and Stock are the numeric columns of [blanks]; Stock never
    varies, and its diagonal entry is NaN. *)
Lemma heatmap_diagonal_not_one :
  exists st m,
    apply_filters Samples.blanks Samples.blanks_default = Ok st
    /\ num_cols st = ["Sales"; "Stock"]
    /\ dispatch st (mkChartRequest Heatmap "Region" None None)
       = Ok (Success (Px.imshow m))
    /\ diagonal m = [1%float; nan]
    /\ diagonal m <> [1%float; 1%float].
Proof.
  do 2 eexists. split; [reflexivity|]. split; [reflexivity|].
  split; [vm_compute; reflexivity|]. split; [reflexivity|].
  intros H. apply (f_equal (map PrimFloat.is_nan)) in H.
  vm_compute in H. discriminate.
Qed.

(** A column that varies has 1.0 on the diagonal as long as the squared
    sums stay in range; past it the quotient is lost. *)
Example pearson_of_sales :
  pearson [10; 20; 30]%float [10; 20; 30]%float = 1%float.
Proof. reflexivity. Qed.

Example pearson_out_of_range :
  pearson [0; 0x1.afcef51f0fb5fp+265]%float [0; 0x1.afcef51f0fb5fp+265]%float
  = 0%float.
Proof. reflexivity. Qed.

(** The same on a view of a single row: every entry is NaN. *)
Example heatmap_of_one_row :
  (st <- apply_filters Samples.blanks
           (mkFilterSpec 1 ["Region"; "Sales"; "Stock"] None []) ;;
   dispatch st (mkChartRequest Heatmap "Region" None None))
  = Ok (Success (Px.imshow (mkCorrMatrix ["Sales"; "Stock"]
                              [[nan; nan]; [nan; nan]]))).
Proof. vm_compute. reflexivity. Qed.

End HeatmapSpecs.

(* ================================================================== *)
(** * The run: an empty view, and an empty selection *)
(* ================================================================== *)

Module RunSpecs.
Import Py Pd App Dashboard.
Local Open Scope string_scope.
Local Open Scope list_scope.

(** Loading shows status messages only. *)
Lemma load_notices (gapminder_2007 : result DataFrame) (w : Widgets) :
  forallb is_notice (fst (load gapminder_2007 w [])) = true.
Proof.
  unfold load, load_df, get_sample_data, seq_, emit, ret, when.
  destruct (file w) as [f|]; simpl.
  - destruct (endswith (lower (file_name f)) ".csv").
    + destruct (read_csv f); simpl; auto.
      destruct (use_sample w); simpl; auto.
      destruct gapminder_2007; reflexivity.
    + destruct (endswith (lower (file_name f)) ".xls"
                || endswith (lower (file_name f)) ".xlsx").
      * destruct (read_excel f); simpl; auto.
        destruct (use_sample w); simpl; auto.
        destruct gapminder_2007; reflexivity.
      * simpl. destruct (use_sample w); simpl; auto.
        destruct gapminder_2007; reflexivity.
  - destruct (use_sample w); simpl; auto.
    destruct gapminder_2007; reflexivity.
Qed.

Lemma empty_false (df : DataFrame) :
  empty df = false ->
  (len df =? 0)%nat = false /\ exists s cols, columns df = s :: cols.
Proof.
  unfold empty. intros H. apply orb_false_iff in H as [H1 H2]. split; auto.
  destruct (columns df) as [|s cols]; [discriminate | eauto].
Qed.

(** C8: when the filters leave a view without rows, the run shows the
    "No data matches your filters" warning and stops there: after the
    loading messages nothing else is shown, no card, chart, table or
    statistic. *)
Theorem empty_view_is_signalled (px : Px.Raises)
    (gapminder_2007 : result DataFrame)
    (w : Widgets) (df : DataFrame) (st : FilterState) (log0 : list Event) :
  load gapminder_2007 w [] = (log0, Next (Some df)) ->
  empty df = false ->
  apply_filters df (filters w) = Ok st ->
  len (df_filtered st) = 0 ->
  run px gapminder_2007 w = (log0 ++ [st_warning no_match_msg], Stop)
  /\ forallb is_notice (fst (run px gapminder_2007 w)) = true.
Proof.
  intros Hload Hne Hrun Hlen.
  assert (Hlog : forallb is_notice log0 = true).
  { pose proof (load_notices gapminder_2007 w) as H.
    now rewrite Hload in H. }
  assert (E : run px gapminder_2007 w = (log0 ++ [st_warning no_match_msg], Stop)).
  { destruct (empty_false _ Hne) as (Hl & s & cols & Hcols).
    unfold run, main, seq_ at 1. rewrite Hload.
    unfold seq_, when, call, emit, st_stop, ret.
    rewrite Hne, Hl; simpl.
    assert (Hdet : negb (truthy (detect_num_cols df))
                   && negb (truthy (detect_cat_cols df)) = false).
    { unfold detect_num_cols, detect_cat_cols, columns_tolist; simpl.
      rewrite Hcols; simpl.
      destruct (is_number (dtype_of (data s))); simpl; auto.
      apply andb_false_r. }
    rewrite Hdet, Hrun.
    assert (Hemp : empty (df_filtered st)
                   || (len (df_filtered st) =? 0)%nat = true).
    { rewrite Hlen. apply orb_true_r. }
    rewrite Hemp. reflexivity. }
  split; [exact E|].
  rewrite E; simpl. rewrite forallb_app, Hlog. reflexivity.
Qed.

Lemma empty_view_is_signalled_witness :
  run Samples.makes_all (Raise ValueError)
      (mkWidgets (Some (Samples.upload Samples.sales)) false
                 (Samples.by_region [VStr "East"])
                 (mkChartRequest Bar "Region" (Some "Sales") None))
  = ([st_success "✅ Loaded: data.csv"] ++ [st_warning no_match_msg], Stop)
  /\ forallb is_notice
       (fst (run Samples.makes_all (Raise ValueError)
               (mkWidgets (Some (Samples.upload Samples.sales)) false
                          (Samples.by_region [VStr "East"])
                          (mkChartRequest Bar "Region" (Some "Sales") None))))
     = true.
Proof.
  apply (@empty_view_is_signalled Samples.makes_all (Raise ValueError)
           (mkWidgets (Some (Samples.upload Samples.sales)) false
                      (Samples.by_region [VStr "East"])
                      (mkChartRequest Bar "Region" (Some "Sales") None))
           Samples.sales
           (mkFilterState (mkDataFrame [] [mkSeries "Region" (ObjCol []);
                                           mkSeries "Sales" (IntCol [])])
                          ["Sales"] ["Region"]));
    reflexivity.
Defined.

(** With a view that has rows the run goes on to the cards, the chart and
    the tables. *)
Example run_of_sales :
  run Samples.makes_all (Raise ValueError)
      (mkWidgets (Some (Samples.upload Samples.sales)) false
                 (Samples.by_region [VStr "South"])
                 (mkChartRequest Heatmap "Region" (Some "Sales") None))
  = ([st_success "✅ Loaded: data.csv";
      st_kpi "Total Rows" None (KpiCount 1);
      st_kpi "Mean" (Some "Sales") (KpiMeanOf (mkSeries "Sales" (IntCol [20%Z])));
      st_kpi "Unique" (Some "Region") (KpiCount 1);
      st_kpi "Columns" None (KpiCount 2);
      st_info "💡 **Heatmap:** ✓ Auto-correlates numeric columns";
      st_warning heatmap_msg;
      st_dataframe
        (mkDataFrame [1%Z] [mkSeries "Region" (ObjCol [VStr "South"]);
                            mkSeries "Sales" (IntCol [20%Z])]);
      st_download_button
        (mkDataFrame [1%Z] [mkSeries "Region" (ObjCol [VStr "South"]);
                            mkSeries "Sales" (IntCol [20%Z])]);
      st_write "**Numeric Columns:**";
      st_describe (mkDataFrame [1%Z] [mkSeries "Sales" (IntCol [20%Z])]);
      st_write "**Categorical Columns:**";
      st_write_nunique "Region" 1;
      st_about],
     Next tt).
Proof. reflexivity. Qed.

(** An empty selection of values never drops a row: where the category
    stage returns, it returns the state it was given. *)
Lemma empty_selection_retains (st st' : FilterState) (fc : option string) :
  category_filter st fc [] = Ok st' -> st' = st.
Proof.
  unfold category_filter. destruct (truthy (cat_cols st)).
  2:{ intros H; now injection H. }
  destruct fc as [col|].
  2:{ intros H; now injection H. }
  destruct (getitem (df_filtered st) col) as [s|]; simpl; [|discriminate].
  destruct (sorted (unique s)); simpl; [|discriminate].
  intros H; now injection H.
Qed.

End RunSpecs.

From Stdlib Require Import Permutation.

(* ================================================================== *)
(** * Loading: extensions, priority and early stops *)
(* ================================================================== *)

Module LoadSpecs.
Import Py Pd App Dashboard Shown.
Local Open Scope string_scope.
Local Open Scope list_scope.

Lemma length_append (a b : string) :
  String.length (a ++ b) = String.length a + String.length b.
Proof. induction a as [|c a IH]; simpl; auto. Qed.

Lemma substring_whole (s : string) : substring 0 (String.length s) s = s.
Proof. induction s as [|c s IH]; simpl; auto. now rewrite IH. Qed.

(** Reading [m] characters past a prefix reads them from what follows. *)
Lemma substring_past_prefix (p s : string) (k m : nat) :
  substring (String.length p + k) m (p ++ s) = substring k m s.
Proof. induction p as [|c p IH]; simpl; auto. Qed.

Lemma lower_append (a b : string) :
  lower (a ++ b) = (lower a ++ lower b)%string.
Proof. induction a as [|c a IH]; simpl; auto. now rewrite IH. Qed.

Lemma lower_length (s : string) : String.length (lower s) = String.length s.
Proof. induction s as [|c s IH]; simpl; auto. Qed.

(** [endswith] tests for a suffix. *)
Lemma endswith_suffix (p suffix : string) : endswith (p ++ suffix) suffix = true.
Proof.
  unfold endswith. rewrite length_append.
  replace (String.length p + String.length suffix - String.length suffix)
    with (String.length p + 0) by lia.
  rewrite substring_past_prefix, substring_whole, String.eqb_refl.
  rewrite andb_true_r. apply Nat.leb_le. lia.
Qed.

Lemma substring_split (s : string) (n : nat) :
  n <= String.length s ->
  s = (substring 0 n s ++ substring n (String.length s - n) s)%string.
Proof.
  revert n. induction s as [|c s IH]; intros [|n] Hn; simpl in *;
    try lia; auto.
  - now rewrite substring_whole.
  - f_equal. apply IH. lia.
Qed.

Lemma endswith_inv (s suffix : string) :
  endswith s suffix = true -> exists p, s = (p ++ suffix)%string.
Proof.
  unfold endswith. intros H. apply andb_true_iff in H as [Hl He].
  apply Nat.leb_le in Hl. apply String.eqb_eq in He.
  exists (substring 0 (String.length s - String.length suffix) s).
  assert (Hn : String.length s - String.length suffix <= String.length s)
    by lia.
  pose proof (@substring_split s _ Hn) as E.
  replace (String.length s - (String.length s - String.length suffix))
    with (String.length suffix) in E by lia.
  now rewrite He in E.
Qed.

(** A file named with any spelling of the [.csv] extension goes to
    [read_csv]: the dataset it returns is the result; an exception it raises
    is shown as an error and the result is [None], nothing is raised. *)
Theorem load_df_reads_csv (f : UploadedFile) (base ext : string)
    (log : list Event) :
  file_name f = (base ++ ext)%string ->
  lower ext = ".csv" ->
  load_df (Some f) log
  = match read_csv f with
    | Ok d => (log, Next (Some d))
    | Raise e => (log ++ [st_error_exception e], Next None)
    end.
Proof.
  intros Hn He. unfold load_df. rewrite Hn, lower_append, He.
  rewrite endswith_suffix. now destruct (read_csv f).
Qed.

Lemma load_df_reads_csv_witness :
  load_df (Some (mkUploadedFile "Report.CSV" (Ok Samples.sales)
                                (Raise ValueError))) []
  = ([], Next (Some Samples.sales)).
Proof.
  apply (@load_df_reads_csv
           (mkUploadedFile "Report.CSV" (Ok Samples.sales) (Raise ValueError))
           "Report" ".CSV" []); reflexivity.
Defined.

Lemma not_csv (p ext : string) :
  ext = ".xls" \/ ext = ".xlsx" -> endswith (p ++ ext) ".csv" = false.
Proof.
  intros [->| ->]; unfold endswith; rewrite length_append; simpl.
  - replace (String.length p + 4 - 4) with (String.length p + 0) by lia.
    rewrite substring_past_prefix. simpl. apply andb_false_r.
  - replace (String.length p + 5 - 4) with (String.length p + 1) by lia.
    rewrite substring_past_prefix. simpl. apply andb_false_r.
Qed.

(** A file named with any spelling of [.xls] or [.xlsx] goes to
    [read_excel], with the same handling of what it returns or raises. *)
Theorem load_df_reads_excel (f : UploadedFile) (base ext : string)
    (log : list Event) :
  file_name f = (base ++ ext)%string ->
  lower ext = ".xls" \/ lower ext = ".xlsx" ->
  load_df (Some f) log
  = match read_excel f with
    | Ok d => (log, Next (Some d))
    | Raise e => (log ++ [st_error_exception e], Next None)
    end.
Proof.
  intros Hn He. unfold load_df. rewrite Hn, lower_append.
  rewrite (not_csv (lower base) He).
  assert (Hx : endswith (lower base ++ lower ext) ".xls"
               || endswith (lower base ++ lower ext) ".xlsx" = true).
  { destruct He as [-> | ->]; rewrite endswith_suffix; auto using orb_true_r. }
  rewrite Hx. now destruct (read_excel f).
Qed.

Lemma load_df_reads_excel_witness :
  load_df (Some (mkUploadedFile "Book.XLSX" (Raise ValueError)
                                (Ok Samples.sales))) []
  = ([], Next (Some Samples.sales)).
Proof.
  apply (@load_df_reads_excel
           (mkUploadedFile "Book.XLSX" (Raise ValueError) (Ok Samples.sales))
           "Book" ".XLSX" []); [reflexivity | right; reflexivity].
Defined.

(** [load_df] hands back [None] or a dataset; it never ends the run. *)
Lemma load_df_returns (f : option UploadedFile) (log : list Event) :
  exists log1 r, load_df f log = (log1, Next r).
Proof.
  unfold load_df. destruct f as [f|]; [|now eexists; eexists].
  destruct (endswith (lower (file_name f)) ".csv").
  - destruct (read_csv f); now eexists; eexists.
  - destruct (endswith (lower (file_name f)) ".xls"
              || endswith (lower (file_name f)) ".xlsx").
    + destruct (read_excel f); now eexists; eexists.
    + now eexists; eexists.
Qed.

(** Lines 83-94, "file upload > sample data > nothing": the dataset of a
    run is the upload when it could be read; otherwise the sample when the
    box is checked and the sample could be read; otherwise there is none.
    Loading itself never stops the run. *)
Theorem load_priority (gapminder_2007 : result DataFrame) (w : Widgets) :
  exists log1 uploaded,
    load_df (file w) [] = (log1, Next uploaded)
    /\ snd (load gapminder_2007 w [])
       = Next (match uploaded with
               | Some d => Some d
               | None =>
                   if use_sample w
                   then match gapminder_2007 with
                        | Ok d => Some d
                        | Raise _ => None
                        end
                   else None
               end).
Proof.
  destruct (load_df_returns (file w) []) as (log1 & r & H).
  exists log1, r. split; [exact H|].
  unfold load. destruct (file w) as [f|].
  - unfold seq_ at 1 2. rewrite H.
    destruct r as [d|]; simpl; [reflexivity|].
    destruct (use_sample w); simpl; [|reflexivity].
    now destruct gapminder_2007.
  - simpl in H. injection H as <- <-. simpl.
    destruct (use_sample w); simpl; [|reflexivity].
    now destruct gapminder_2007.
Qed.

(** An upload that cannot be read falls back to the sample when the box is
    checked: the failure is reported, then the sample is announced. *)
Theorem failed_upload_falls_back (f : UploadedFile) (w : Widgets)
    (sample : DataFrame) (log1 : list Event) :
  file w = Some f -> use_sample w = true ->
  load_df (Some f) [] = (log1, Next None) ->
  load (Ok sample) w []
  = (log1 ++ [st_error ("❌ Could not load " ++ file_name f)%string;
              st_success "✅ Loaded sample data"],
     Next (Some sample)).
Proof.
  intros Hf Hu H. unfold load. rewrite Hf, Hu.
  unfold seq_ at 1 2. rewrite H.
  unfold get_sample_data, seq_, when, ret, emit. simpl.
  rewrite <- app_assoc. reflexivity.
Qed.

Lemma failed_upload_falls_back_witness :
  load (Ok Samples.sales)
       (mkWidgets (Some (mkUploadedFile "notes.txt" (Ok Samples.blanks)
                                        (Ok Samples.blanks)))
                  true Samples.no_filter
                  (mkChartRequest Bar "Region" None None)) []
  = ([] ++ [st_error "❌ Could not load notes.txt";
            st_success "✅ Loaded sample data"],
     Next (Some Samples.sales)).
Proof.
  apply (@failed_upload_falls_back
           (mkUploadedFile "notes.txt" (Ok Samples.blanks) (Ok Samples.blanks))
           (mkWidgets (Some (mkUploadedFile "notes.txt" (Ok Samples.blanks)
                                            (Ok Samples.blanks)))
                      true Samples.no_filter
                      (mkChartRequest Bar "Region" None None))
           Samples.sales []); reflexivity.
Defined.

(** Lines 97-99: without a dataset the run shows how to get started and
    stops. *)
Theorem no_data_stops (px : Px.Raises)
    (gapminder_2007 : result DataFrame) (w : Widgets)
    (log0 : list Event) :
  load gapminder_2007 w [] = (log0, Next None) ->
  run px gapminder_2007 w = (log0 ++ [st_info getting_started_msg], Stop).
Proof.
  intros H. unfold run, main, seq_ at 1. rewrite H. reflexivity.
Qed.

Lemma no_data_stops_witness :
  run Samples.makes_all (Raise ValueError)
      (mkWidgets None true Samples.no_filter
                 (mkChartRequest Bar "Region" None None))
  = ([st_error_exception ValueError] ++ [st_info getting_started_msg], Stop).
Proof.
  apply (@no_data_stops Samples.makes_all (Raise ValueError)
           (mkWidgets None true Samples.no_filter
                      (mkChartRequest Bar "Region" None None))
           [st_error_exception ValueError]); reflexivity.
Defined.

(** Lines 102-104: a dataset without rows, or without columns, stops the run
    with "Dataset is empty!" before any filter is applied, whatever the
    filter widgets hold. *)
Theorem empty_dataset_stops (px : Px.Raises)
    (gapminder_2007 : result DataFrame) (w : Widgets)
    (df : DataFrame) (log0 : list Event) :
  load gapminder_2007 w [] = (log0, Next (Some df)) ->
  len df = 0 \/ columns df = [] ->
  run px gapminder_2007 w = (log0 ++ [st_error empty_dataset_msg], Stop).
Proof.
  intros H He. unfold run, main, seq_ at 1. rewrite H.
  assert (E : empty df || (len df =? 0)%nat = true).
  { unfold empty. destruct He as [-> | ->]; simpl; [reflexivity|].
    now rewrite orb_true_r. }
  unfold seq_ at 1, when. rewrite E. reflexivity.
Qed.

Lemma empty_dataset_stops_witness :
  run Samples.makes_all (Raise ValueError)
      (mkWidgets (Some (Samples.upload
                          (mkDataFrame [] [mkSeries "Region" (ObjCol [])])))
                 false (Samples.by_region [VStr "South"])
                 (mkChartRequest Bar "Region" None None))
  = ([st_success "✅ Loaded: data.csv"] ++ [st_error empty_dataset_msg], Stop).
Proof.
  apply (@empty_dataset_stops Samples.makes_all (Raise ValueError)
           (mkWidgets (Some (Samples.upload
                               (mkDataFrame [] [mkSeries "Region" (ObjCol [])])))
                      false (Samples.by_region [VStr "South"])
                      (mkChartRequest Bar "Region" None None))
           (mkDataFrame [] [mkSeries "Region" (ObjCol [])])
           [st_success "✅ Loaded: data.csv"]); [reflexivity | now left].
Defined.

End LoadSpecs.

(* ================================================================== *)
(** * The filters: unknown columns, first rows, matching rows *)
(* ================================================================== *)

Module FilterExtras.
Import Py Pd App Dashboard Shown.
Import RowFacts ColumnFacts PipelineFacts SortFacts ViewFacts Classification.
Local Open Scope string_scope.
Local Open Scope list_scope.

Lemma take_columns_missing (cols : list Series) (labels : list string) :
  (exists c, In c labels /\ ~ In c (map name cols)) ->
  exists c, In c labels /\ ~ In c (map name cols)
            /\ take_columns cols labels = Raise (KeyError c).
Proof.
  induction labels as [|l ls IH]; intros (c & Hc & Hn); [contradiction|].
  simpl. destruct (labelled l cols) as [|t ts] eqn:E.
  - exists l. repeat split; auto. now apply labelled_none.
  - destruct Hc as [->|Hc].
    + exfalso. apply labelled_none in Hn. congruence.
    + destruct IH as (c' & Hc' & Hn' & Hr); [eauto|].
      exists c'. rewrite Hr. simpl. auto.
Qed.

(** Line 137: including a column the dataset does not have raises
    [KeyError] on the first such column; no view is produced. *)
Theorem unknown_column_raises (df : DataFrame) (spec : FilterSpec) :
  (exists c, In c (selected_cols spec) /\ ~ In c (columns_tolist df)) ->
  exists c,
    In c (selected_cols spec) /\ ~ In c (columns_tolist df)
    /\ apply_filters df spec = Raise (KeyError c).
Proof.
  intros H.
  destruct (@take_columns_missing (columns (head (row_limit spec) df))
              (selected_cols spec)) as (c & Hc & Hn & Hr).
  { destruct H as (c & Hc & Hn). exists c. split; auto.
    change (~ In c (columns_tolist (head (row_limit spec) df))).
    unfold head. rewrite columns_tolist_on_rows by apply slice_to_natural.
    exact Hn. }
  exists c. split; [exact Hc|]. split.
  - change (~ In c (columns_tolist (head (row_limit spec) df))) in Hn.
    unfold head in Hn.
    now rewrite columns_tolist_on_rows in Hn by apply slice_to_natural.
  - unfold apply_filters, column_filter, row_filter; simpl.
    destruct (selected_cols spec) as [|l ls]; [contradiction|].
    cbn [truthy]. unfold getitem_cols. rewrite Hr. reflexivity.
Qed.

Lemma unknown_column_raises_witness :
  exists c,
    In c ["Sales"; "Profit"] /\ ~ In c ["Region"; "Sales"]
    /\ apply_filters Samples.sales (mkFilterSpec 3 ["Sales"; "Profit"] None [])
       = Raise (KeyError c).
Proof.
  apply (@unknown_column_raises Samples.sales
           (mkFilterSpec 3 ["Sales"; "Profit"] None [])).
  exists "Profit". split; [simpl; auto|].
  simpl. intros [H|[H|[]]]; discriminate.
Defined.

Lemma category_filter_skipped (st1 st : FilterState) fc fv :
  fc = None \/ fv = [] ->
  category_filter st1 fc fv = Ok st -> st = st1.
Proof.
  intros [-> | ->] H.
  - unfold category_filter in H.
    destruct (truthy (cat_cols st1)); now injection H.
  - unfold category_filter in H. destruct (truthy (cat_cols st1)).
    2:{ now injection H. }
    destruct fc as [col|].
    2:{ now injection H. }
    destruct (getitem (df_filtered st1) col) as [s|]; simpl in H;
      [|discriminate].
    destruct (sorted (unique s)); simpl in H; [|discriminate].
    now injection H.
Qed.

(** Picking columns and cutting rows can be done in either order. *)
Lemma take_columns_on_rows f (cols : list Series) (labels : list string) :
  take_columns (map (fun s => mkSeries (name s) (map_rows f (data s))) cols)
    labels
  = (picked <- take_columns cols labels ;;
     Ok (map (fun s => mkSeries (name s) (map_rows f (data s))) picked)).
Proof.
  induction labels as [|l ls IH]; simpl; auto.
  rewrite Idempotence.labelled_on_rows, IH.
  destruct (labelled l cols) as [|t ts]; simpl; auto.
  destruct (take_columns cols ls); simpl; auto.
  now rewrite map_app.
Qed.

(** Every column of [df.head(n)] is the column it comes from, cut to its
    first [n] cells. *)
Lemma head_columns (n : Z) (cols : list Series) :
  (0 <= n)%Z ->
  Forall2 (fun s0 s =>
             name s = name s0
             /\ dtype_of (data s) = dtype_of (data s0)
             /\ cells (data s) = firstn (Z.to_nat n) (cells (data s0)))
    cols
    (map (fun s => mkSeries (name s) (map_rows (slice_to n) (data s))) cols).
Proof.
  intros Hn. induction cols as [|c cols IH]; simpl; constructor; auto.
  simpl. split; [reflexivity|]. split; [apply dtype_map_rows|].
  rewrite cells_map_rows by apply slice_to_natural.
  unfold slice_to. destruct (n <? 0)%Z eqn:E; auto.
  apply Z.ltb_lt in E. lia.
Qed.

(** Lines 126-140, with no category chosen or no value picked: the view is
    the first [row_limit] rows (all rows when the dataset is shorter) of the
    included columns, in the order they were included, or of every column
    when none is included: each column of the view has the name, the dtype
    and the first [row_limit] cells of the column it was picked from. *)
Theorem unfiltered_view_is_head (df : DataFrame) (spec : FilterSpec)
    (st : FilterState) :
  well_formed df = true ->
  apply_filters df spec = Ok st ->
  filter_col spec = None \/ filter_values spec = [] ->
  (0 <= row_limit spec)%Z ->
  exists picked,
    (if truthy (selected_cols spec)
     then take_columns (columns df) (selected_cols spec) = Ok picked
     else picked = columns df)
    /\ columns_tolist (df_filtered st)
       = (if truthy (selected_cols spec) then selected_cols spec
          else columns_tolist df)
    /\ index (df_filtered st) = firstn (Z.to_nat (row_limit spec)) (index df)
    /\ len (df_filtered st) = Nat.min (Z.to_nat (row_limit spec)) (len df)
    /\ Forall2 (fun s0 s =>
                  name s = name s0
                  /\ dtype_of (data s) = dtype_of (data s0)
                  /\ cells (data s)
                     = firstn (Z.to_nat (row_limit spec)) (cells (data s0)))
         picked (columns (df_filtered st))
    /\ (selected_cols spec = [] -> df_filtered st = head (row_limit spec) df).
Proof.
  intros Hwf Hrun Hno Hn. apply andb_true_iff in Hwf as [Hd _].
  pose proof (@view_names _ _ _ Hrun Hd) as Hnames.
  destruct (@apply_filters_inv _ _ _ Hrun) as (st1 & Hc & Hf).
  apply (category_filter_skipped _ Hno) in Hf. subst st.
  apply column_filter_inv in Hc as (_ & _ & Hmid). simpl in Hmid.
  assert (Hi : index (df_filtered st1)
               = slice_to (row_limit spec) (index df)).
  { destruct Hmid as [[_ ->] | [_ Hg]]; [reflexivity|].
    apply getitem_cols_inv in Hg as [-> _]. reflexivity. }
  assert (Hs : slice_to (row_limit spec) (index df)
               = firstn (Z.to_nat (row_limit spec)) (index df)).
  { unfold slice_to. destruct (row_limit spec <? 0)%Z eqn:E; auto.
    apply Z.ltb_lt in E. lia. }
  assert (Hlen : len (df_filtered st1)
                 = Nat.min (Z.to_nat (row_limit spec)) (len df)).
  { unfold len. rewrite Hi, Hs. apply length_firstn. }
  destruct Hmid as [[Hsel Hv] | [Hsel Hg]].
  - exists (columns df). rewrite Hsel in *. simpl.
    repeat split; auto; try congruence.
    rewrite Hv. unfold head, on_rows. simpl. now apply head_columns.
  - apply getitem_cols_inv in Hg as [_ Hg]. unfold head, on_rows in Hg.
    simpl in Hg. rewrite take_columns_on_rows in Hg.
    destruct (take_columns (columns df) (selected_cols spec))
      as [picked|] eqn:Ep; simpl in Hg; [|discriminate].
    injection Hg as Hg. exists picked.
    destruct (selected_cols spec) as [|l ls] eqn:El; [contradiction|].
    cbn [truthy] in *. repeat split; auto; try congruence.
    rewrite <- Hg. now apply head_columns.
Qed.

Lemma unfiltered_view_is_head_witness :
  exists picked,
    take_columns (columns Samples.sales) ["Sales"] = Ok picked
    /\ ["Sales"] = ["Sales"]
    /\ [0; 1]%Z = firstn 2 (index Samples.sales)
    /\ 2 = Nat.min 2 (len Samples.sales)
    /\ Forall2 (fun s0 s =>
                  name s = name s0
                  /\ dtype_of (data s) = dtype_of (data s0)
                  /\ cells (data s) = firstn 2 (cells (data s0)))
         picked [mkSeries "Sales" (IntCol [10; 20]%Z)]
    /\ (["Sales"] = [] ->
        mkDataFrame [0; 1]%Z [mkSeries "Sales" (IntCol [10; 20]%Z)]
        = head 2 Samples.sales).
Proof.
  apply (@unfiltered_view_is_head Samples.sales
           (mkFilterSpec 2 ["Sales"] None [])
           (mkFilterState
              (mkDataFrame [0; 1]%Z [mkSeries "Sales" (IntCol [10; 20]%Z)])
              ["Sales"] []));
    [reflexivity | reflexivity | now left | simpl; lia].
Defined.

Lemma compress_passes {A} (p : A -> bool) (l : list A) :
  Forall (fun c => p c = true) (compress (map p l) l).
Proof.
  induction l as [|x l IH]; simpl; [constructor|].
  destruct (p x) eqn:E; auto.
Qed.

Lemma compress_count (mask : list bool) {A} (l : list A) :
  List.length l = List.length mask ->
  List.length (compress mask l) = count_true mask.
Proof.
  unfold count_true. revert l.
  induction mask as [|b mask IH]; intros [|x l]; simpl; try discriminate; auto.
  intros H. injection H as H. destruct b; simpl; auto.
Qed.

(** Lines 147-149, with values picked: the view keeps exactly the rows whose
    cell in the filter column is one of the picked values, so it has as many
    rows as the column had such cells, and every cell of that column in the
    view is a picked value. *)
Theorem category_filter_keeps_matches (df : DataFrame) (spec : FilterSpec)
    (st : FilterState) (col : string) :
  well_formed df = true ->
  apply_filters df spec = Ok st ->
  filter_col spec = Some col ->
  filter_values spec <> [] ->
  cat_cols st <> [] ->
  exists st1 s s',
    column_filter (row_filter df (row_limit spec)) (selected_cols spec) = Ok st1
    /\ getitem (df_filtered st1) col = Ok s
    /\ df_filtered st
       = getitem_mask (df_filtered st1) (isin s (filter_values spec))
    /\ len (df_filtered st) = count_true (isin s (filter_values spec))
    /\ getitem (df_filtered st) col = Ok s'
    /\ Forall (fun c => existsb (py_eq c) (filter_values spec) = true)
              (cells (data s')).
Proof.
  intros Hwf Hrun Hfc Hfv Hcat. apply andb_true_iff in Hwf as [_ Ha].
  destruct (@apply_filters_inv _ _ _ Hrun) as (st1 & Hc & Hf).
  pose proof (@FilterSpecs.column_stage_as_run _ _ _ Hc) as Hrun1.
  pose proof (@view_aligned _ _ _ Hrun1 Ha) as Ha1.
  unfold category_filter in Hf. rewrite Hfc in Hf.
  destruct (truthy (cat_cols st1)) eqn:Et.
  2:{ injection Hf as <-. apply truthy_false in Et. contradiction. }
  destruct (getitem (df_filtered st1) col) as [s|] eqn:Es; simpl in Hf;
    [|discriminate].
  destruct (sorted (unique s)) as [options|]; simpl in Hf; [|discriminate].
  destruct (filter_values spec) as [|v fv] eqn:Efv; [contradiction|].
  cbn [truthy] in Hf. injection Hf as <-. simpl.
  apply getitem_In in Es as Hs. destruct Hs as [Hsin _].
  exists st1, s,
    (mkSeries (name s) (map_rows (compress (isin s (v :: fv))) (data s))).
  split; [exact Hc|]. split; [exact Es|]. split; [reflexivity|].
  assert (Hlen : List.length (cells (data s)) = len (df_filtered st1)).
  { unfold aligned in Ha1. rewrite forallb_forall in Ha1.
    specialize (Ha1 s Hsin). now apply Nat.eqb_eq in Ha1. }
  split; [|split].
  - unfold getitem_mask, len, on_rows; simpl. apply compress_count.
    unfold isin. rewrite length_map. symmetry. exact Hlen.
  - unfold getitem_mask. rewrite Idempotence.getitem_on_rows, Es. reflexivity.
  - simpl. rewrite cells_map_rows by apply compress_natural.
    apply compress_passes.
Qed.

Lemma category_filter_keeps_matches_witness :
  exists st1 s s',
    column_filter (row_filter Samples.sales 3) ["Region"; "Sales"] = Ok st1
    /\ getitem (df_filtered st1) "Region" = Ok s
    /\ mkDataFrame [1%Z] [mkSeries "Region" (ObjCol [VStr "South"]);
                          mkSeries "Sales" (IntCol [20%Z])]
       = getitem_mask (df_filtered st1) (isin s [VStr "South"])
    /\ 1 = count_true (isin s [VStr "South"])
    /\ getitem (mkDataFrame [1%Z] [mkSeries "Region" (ObjCol [VStr "South"]);
                                   mkSeries "Sales" (IntCol [20%Z])])
               "Region" = Ok s'
    /\ Forall (fun c => existsb (py_eq c) [VStr "South"] = true)
              (cells (data s')).
Proof.
  apply (@category_filter_keeps_matches Samples.sales
           (Samples.by_region [VStr "South"])
           (mkFilterState
              (mkDataFrame [1%Z] [mkSeries "Region" (ObjCol [VStr "South"]);
                                  mkSeries "Sales" (IntCol [20%Z])])
              ["Sales"] ["Region"])
           "Region"); try reflexivity; discriminate.
Defined.

(** Lines 139-140 narrow the column lists instead of detecting again; on
    the view this is the same: the narrowed lists name exactly the columns
    that detection on the view would name. *)
Theorem narrowed_lists_match_detection (df : DataFrame) (spec : FilterSpec)
    (st : FilterState) :
  well_formed df = true ->
  apply_filters df spec = Ok st ->
  forall col,
    (In col (num_cols st) <-> In col (detect_num_cols (df_filtered st)))
    /\ (In col (cat_cols st) <-> In col (detect_cat_cols (df_filtered st))).
Proof.
  intros Hwf Hrun col. apply andb_true_iff in Hwf as [Hd _]. split.
  - rewrite (@view_num_cols_In _ _ _ Hd Hrun), detect_num_cols_In. tauto.
  - rewrite (@view_cat_cols_In _ _ _ Hd Hrun), detect_cat_cols_In. tauto.
Qed.

Lemma narrowed_lists_match_detection_witness :
  (In "Sales" ["Sales"]
   <-> In "Sales"
         (detect_num_cols
            (mkDataFrame [0; 1; 2]%Z
               [mkSeries "Sales" (IntCol [10; 20; 30]%Z);
                mkSeries "Region"
                  (ObjCol [VStr "North"; VFloat nan; VStr "North"])])))
  /\ (In "Sales" ["Region"]
      <-> In "Sales"
            (detect_cat_cols
               (mkDataFrame [0; 1; 2]%Z
                  [mkSeries "Sales" (IntCol [10; 20; 30]%Z);
                   mkSeries "Region"
                     (ObjCol [VStr "North"; VFloat nan; VStr "North"])]))).
Proof.
  apply (@narrowed_lists_match_detection Samples.blanks
           (mkFilterSpec 3 ["Sales"; "Region"] None [])
           (mkFilterState
              (mkDataFrame [0; 1; 2]%Z
                 [mkSeries "Sales" (IntCol [10; 20; 30]%Z);
                  mkSeries "Region"
                    (ObjCol [VStr "North"; VFloat nan; VStr "North"])])
              ["Sales"] ["Region"]));
    reflexivity.
Defined.

End FilterExtras.

(* ================================================================== *)
(** * The chart tab on a view the filters produced *)
(* ================================================================== *)

Module ChartExtras.
Import Py Pd App Dashboard Shown.
Import RowFacts ColumnFacts PipelineFacts SortFacts ViewFacts Classification.
Import DispatchSpecs GroupSpecs HeatmapSpecs.
Local Open Scope string_scope.
Local Open Scope list_scope.

Lemma messages_not_empty (x : string) :
  select_y_msg <> "" /\ scatter_msg x <> "" /\ not_numeric_msg x <> ""
  /\ not_categorical_msg x <> "" /\ no_data_msg <> "" /\ sunburst_msg <> ""
  /\ heatmap_msg <> "".
Proof. repeat split; discriminate. Qed.

Section OnAView.
Variables (df : DataFrame) (spec : FilterSpec) (st : FilterState).
Hypothesis Hwf : well_formed df = true.
Hypothesis Hok : filter_spec_ok df spec = true.
Hypothesis Hrun : apply_filters df spec = Ok st.





End OnAView.



(** When plotly express refuses the call, the tab shows its error in place
    of the chart: the Sunburst of Region and Sales on the dataset with a
    blank Region cell. *)
Example sunburst_refused :
  chart_tab Samples.refuses_sunburst Samples.blanks_view
    (mkChartRequest Sunburst "Region" (Some "Sales") None) []
  = ([st_info "💡 **Sunburst:** ✓ X: categorical, Y: numeric";
      st_error_exception ValueError],
     Next tt).
Proof. reflexivity. Qed.

(** A chart is only built over an X column of the type its kind needs:
    Scatter and Histogram over a column of the view with a number dtype;
    Box Plot, Violin, Pie, Donut and Sunburst over a column of the view with
    another dtype. *)
Theorem built_charts_have_typed_x (df : DataFrame) (spec : FilterSpec)
    (st : FilterState) (req : ChartRequest) (fig : Px.Figure) :
  well_formed df = true ->
  apply_filters df spec = Ok st ->
  dispatch st req = Ok (Success fig) ->
  (In (chart_type req) [Scatter; Histogram] ->
   exists s, In s (columns (df_filtered st)) /\ name s = x_axis req
             /\ is_number (dtype_of (data s)) = true)
  /\ (In (chart_type req) [BoxPlot; Violin; Pie; Donut; Sunburst] ->
      exists s, In s (columns (df_filtered st)) /\ name s = x_axis req
                /\ is_number (dtype_of (data s)) = false).
Proof.
  intros Hwf Hrun Hfig. apply andb_true_iff in Hwf as [Hd _].
  destruct req as [k x y g]; simpl. unfold dispatch in Hfig; simpl in Hfig.
  split; intros Hk.
  - apply (@view_num_cols_In _ _ _ Hd Hrun). apply str_in_In.
    destruct Hk as [<-|[<-|[]]].
    + destruct y; [|discriminate].
      destruct (str_in x (num_cols st)); [reflexivity | discriminate].
    + destruct (str_in x (num_cols st)); [reflexivity | discriminate].
  - apply (@view_cat_cols_In _ _ _ Hd Hrun). apply str_in_In.
    destruct Hk as [<-|[<-|[<-|[<-|[<-|[]]]]]].
    + destruct y; [|discriminate].
      destruct (str_in x (cat_cols st)); [reflexivity | discriminate].
    + destruct y; [|discriminate].
      destruct (str_in x (cat_cols st)); [reflexivity | discriminate].
    + unfold pie_branch in Hfig.
      destruct (str_in x (cat_cols st)); [reflexivity | discriminate].
    + unfold pie_branch in Hfig.
      destruct (str_in x (cat_cols st)); [reflexivity | discriminate].
    + destruct (str_in x (cat_cols st)); [reflexivity | discriminate].
Qed.

Lemma built_charts_have_typed_x_witness :
  (In Histogram [Scatter; Histogram] ->
   exists s, In s (columns Samples.sales) /\ name s = "Sales"
             /\ is_number (dtype_of (data s)) = true)
  /\ (In Histogram [BoxPlot; Violin; Pie; Donut; Sunburst] ->
      exists s, In s (columns Samples.sales) /\ name s = "Sales"
                /\ is_number (dtype_of (data s)) = false).
Proof.
  apply (@built_charts_have_typed_x Samples.sales Samples.no_filter
           Samples.sales_view (mkChartRequest Histogram "Sales" None None)
           (Px.histogram Samples.sales "Sales" None)); reflexivity.
Defined.

(** A Sunburst chart is always built over a numeric Y (its branch tests
    it); a Scatter, Box Plot or Violin chart is when the Y comes from the Y
    selector, whose options are [None] and the numeric columns. *)
Theorem built_charts_have_numeric_y (df : DataFrame) (spec : FilterSpec)
    (st : FilterState) (req : ChartRequest) (fig : Px.Figure) :
  well_formed df = true ->
  apply_filters df spec = Ok st ->
  dispatch st req = Ok (Success fig) ->
  chart_type req = Sunburst
  \/ (In (chart_type req) [Scatter; BoxPlot; Violin]
      /\ selectbox_returns (y_options st) (y_axis req)) ->
  exists col s,
    y_axis req = Some col /\ Px.figure_y fig = Some col
    /\ In s (columns (df_filtered st)) /\ name s = col
    /\ is_number (dtype_of (data s)) = true.
Proof.
  intros Hwf Hrun Hfig Hk. apply andb_true_iff in Hwf as [Hd _].
  assert (Hnum : forall col, In col (num_cols st) ->
            exists s, In s (columns (df_filtered st)) /\ name s = col
                      /\ is_number (dtype_of (data s)) = true).
  { intros col. apply (@view_num_cols_In _ _ _ Hd Hrun). }
  destruct req as [k x y g]; simpl in *. unfold dispatch in Hfig; simpl in Hfig.
  destruct Hk as [-> | [Hk Hsel]].
  - destruct y as [col|]; simpl in Hfig.
    + destruct (str_in x (cat_cols st)); simpl in Hfig; [|discriminate].
      destruct (str_in col (num_cols st)) eqn:E; simpl in Hfig;
        [|discriminate].
      injection Hfig as <-. apply str_in_In in E.
      destruct (Hnum col E) as (s & Hs). exists col, s. simpl. tauto.
    + rewrite orb_true_r in Hfig. discriminate.
  - apply y_options_In in Hsel as [-> | (col & -> & Hin)].
    + destruct Hk as [<-|[<-|[<-|[]]]]; discriminate.
    + destruct (Hnum col Hin) as (s & Hs). exists col, s.
      destruct Hk as [<-|[<-|[<-|[]]]].
      * destruct (str_in x (num_cols st)); simpl in Hfig; [|discriminate].
        injection Hfig as <-. simpl. tauto.
      * destruct (str_in x (cat_cols st)); simpl in Hfig; [|discriminate].
        injection Hfig as <-. simpl. tauto.
      * destruct (str_in x (cat_cols st)); simpl in Hfig; [|discriminate].
        injection Hfig as <-. simpl. tauto.
Qed.

Lemma built_charts_have_numeric_y_witness :
  exists col s,
    Some "Sales" = Some col
    /\ Px.figure_y (Px.sunburst Samples.sales ["Region"] (Some "Sales")
                      "Sunburst: Region") = Some col
    /\ In s (columns Samples.sales) /\ name s = col
    /\ is_number (dtype_of (data s)) = true.
Proof.
  apply (@built_charts_have_numeric_y Samples.sales Samples.no_filter
           Samples.sales_view
           (mkChartRequest Sunburst "Region" (Some "Sales") None)
           (Px.sunburst Samples.sales ["Region"] (Some "Sales")
              "Sunburst: Region")); try reflexivity.
  now left.
Defined.

End ChartExtras.

(* ================================================================== *)
(** * Messages, selectors, cards and statistics *)
(* ================================================================== *)

Module TabExtras.
Import Py Pd App Dashboard Shown.
Import RowFacts ColumnFacts PipelineFacts SortFacts ViewFacts Classification.
Import DispatchSpecs GroupSpecs HeatmapSpecs.
Local Open Scope string_scope.
Local Open Scope list_scope.

Lemma type_messages_name_x (x : string) :
  names_column (not_numeric_msg x) x /\ names_column (not_categorical_msg x) x.
Proof.
  split.
  - exists "⚠️ X axis ", " is not numeric". reflexivity.
  - exists "⚠️ X axis ", " is not categorical". reflexivity.
Qed.

(** Closes a branch of the dispatch: a figure is no failure, and a failure
    carries the branch's message. *)
Ltac settle :=
  let H := fresh "H" in
  intros H; unfold Success, Failure in H;
  first [ discriminate H | injection H as <-; auto 6 ].

(** Every refusal says why: it is one of four fixed messages (no Y, the
    Sunburst and Heatmap requirements, no data), or it quotes the X column
    whose type does not fit. *)
Theorem failures_say_why (st : FilterState) (req : ChartRequest)
    (msg : string) :
  dispatch st req = Ok (Failure msg) ->
  msg = select_y_msg \/ msg = sunburst_msg \/ msg = heatmap_msg
  \/ msg = no_data_msg \/ names_column msg (x_axis req).
Proof.
  destruct (type_messages_name_x (x_axis req)) as [Hnum Hcat].
  pose proof (scatter_msg_names_x (x_axis req)) as Hsc.
  destruct req as [k x y g]; simpl in *. unfold dispatch; simpl.
  assert (Hpie : forall hole,
            pie_branch st x hole = Ok (Failure msg) ->
            msg = no_data_msg \/ names_column msg x).
  { intros hole. unfold pie_branch.
    destruct (str_in x (cat_cols st)); simpl.
    - destruct (groupby_size (df_filtered st) x) as [agg|]; simpl;
        [|discriminate].
      destruct (0 <? List.length agg)%nat; settle.
    - settle. }
  destruct k.
  - destruct y; settle.
  - destruct y; settle.
  - destruct y; [|settle]. destruct (str_in x (num_cols st)); simpl; settle.
  - destruct (str_in x (num_cols st)); settle.
  - destruct y; [|settle]. destruct (str_in x (cat_cols st)); simpl; settle.
  - intros H. apply Hpie in H. tauto.
  - intros H. apply Hpie in H. tauto.
  - destruct (negb (str_in x (cat_cols st)) || negb (opt_in y (num_cols st)));
      settle.
  - destruct (List.length (num_cols st) <? 2)%nat; [settle|].
    destruct (getitem_cols (df_filtered st) (num_cols st)); simpl;
      [|discriminate].
    destruct (corr a); simpl; settle.
  - destruct y; [|settle]. destruct (str_in x (cat_cols st)); simpl; settle.
  - destruct y; settle.
Qed.

Lemma failures_say_why_witness :
  not_numeric_msg "Region" = select_y_msg
  \/ not_numeric_msg "Region" = sunburst_msg
  \/ not_numeric_msg "Region" = heatmap_msg
  \/ not_numeric_msg "Region" = no_data_msg
  \/ names_column (not_numeric_msg "Region") "Region".
Proof.
  apply (@failures_say_why Samples.sales_view
           (mkChartRequest Histogram "Region" None None)
           (not_numeric_msg "Region")).
  reflexivity.
Defined.

(** Selecting columns by dtype keeps their names distinct. *)
Lemma selected_names_NoDup (keep : Series -> bool) (cols : list Series) :
  NoDup (map name cols) -> NoDup (map name (filter keep cols)).
Proof.
  intros Hnd. induction cols as [|s cols IH]; simpl in *; [constructor|].
  apply NoDup_cons_iff in Hnd as [Hs Hcols].
  destruct (keep s); simpl; [|now apply IH].
  apply NoDup_cons; [|now apply IH].
  rewrite in_map_iff. intros (t & Ht & Hin).
  apply filter_In in Hin as [Hin _].
  apply Hs. rewrite <- Ht. now apply in_map.
Qed.

Lemma narrowed_NoDup (sel cols : list string) :
  NoDup cols -> NoDup (narrowed sel cols).
Proof.
  unfold narrowed. destruct (truthy sel); auto. apply NoDup_filter.
Qed.

Section OnAView.
Variables (df : DataFrame) (spec : FilterSpec) (st : FilterState).
Hypothesis Hwf : well_formed df = true.
Hypothesis Hok : filter_spec_ok df spec = true.
Hypothesis Hrun : apply_filters df spec = Ok st.

Lemma all_cols_NoDup : NoDup (all_cols st).
Proof.
  apply andb_true_iff in Hwf as Hwf'. destruct Hwf' as [Hd _].
  destruct (@apply_filters_shape _ _ _ Hrun) as (Hnum & Hcat & _).
  apply distinct_NoDup in Hd as Hnd. unfold all_cols. apply NoDup_app.
  - rewrite Hnum. apply narrowed_NoDup. now apply selected_names_NoDup.
  - rewrite Hcat. apply narrowed_NoDup. now apply selected_names_NoDup.
  - intros col Hn Hc. apply (@view_lists_disjoint _ _ _ Hd Hrun col). auto.
Qed.

(** The two lists together are the columns of the view, each once. *)
Lemma all_cols_are_view_columns :
  Permutation (all_cols st) (columns_tolist (df_filtered st)).
Proof.
  apply andb_true_iff in Hwf as Hwf'. destruct Hwf' as [Hd _].
  apply NoDup_Permutation.
  - apply all_cols_NoDup.
  - exact (@view_names_NoDup _ _ _ Hwf Hok Hrun).
  - intros col. unfold all_cols. rewrite in_app_iff.
    rewrite (@view_num_cols_In _ _ _ Hd Hrun).
    rewrite (@view_cat_cols_In _ _ _ Hd Hrun).
    unfold columns_tolist. rewrite in_map_iff. split.
    + intros [(s & Hs & N & _) | (s & Hs & N & _)]; eauto.
    + intros (s & N & Hs).
      destruct (is_number (dtype_of (data s))) eqn:E; eauto.
Qed.

Lemma view_has_columns :
  empty df = false -> columns (df_filtered st) <> [].
Proof.
  intros He. apply andb_true_iff in Hwf as Hwf'. destruct Hwf' as [Hd _].
  pose proof (@view_names _ _ _ Hrun Hd) as Hn.
  destruct (RunSpecs.empty_false _ He) as (_ & s & cols & Hc).
  intros E. unfold columns_tolist in Hn. rewrite E in Hn. simpl in Hn.
  destruct (selected_cols spec); simpl in Hn; [|discriminate].
  rewrite Hc in Hn. discriminate.
Qed.

End OnAView.

(** Lines 217-220 on a view of a dataset that is not empty: the X selector
    offers the columns of the view, each exactly once, numeric ones first;
    the "No columns" placeholder is never offered. *)
Theorem x_selector_offers_view_columns (df : DataFrame) (spec : FilterSpec)
    (st : FilterState) :
  well_formed df = true ->
  filter_spec_ok df spec = true ->
  apply_filters df spec = Ok st ->
  empty df = false ->
  x_options st = num_cols st ++ cat_cols st
  /\ NoDup (x_options st)
  /\ Permutation (x_options st) (columns_tolist (df_filtered st)).
Proof.
  intros Hwf Hok Hrun He.
  pose proof (@all_cols_NoDup _ _ _ Hwf Hrun) as Hnd.
  pose proof (@all_cols_are_view_columns _ _ _ Hwf Hok Hrun) as Hp.
  assert (E : x_options st = all_cols st).
  { unfold x_options. destruct (all_cols st) as [|c cs] eqn:Ea; auto.
    exfalso. apply Permutation_nil in Hp.
    apply (@view_has_columns _ _ _ Hwf Hrun He).
    unfold columns_tolist in Hp. now apply map_eq_nil in Hp. }
  rewrite E. auto.
Qed.

Lemma x_selector_offers_view_columns_witness :
  x_options Samples.blanks_view = ["Sales"; "Stock"] ++ ["Region"]
  /\ NoDup (x_options Samples.blanks_view)
  /\ Permutation (x_options Samples.blanks_view) ["Region"; "Sales"; "Stock"].
Proof.
  apply (@x_selector_offers_view_columns Samples.blanks
           Samples.blanks_default Samples.blanks_view); reflexivity.
Defined.

End TabExtras.

(* ================================================================== *)
(** * Cards, statistics and the whole run *)
(* ================================================================== *)

Module RunExtras.
Import Py Pd App Dashboard Shown.
Import RowFacts ColumnFacts PipelineFacts SortFacts ViewFacts Classification.
Import DispatchSpecs GroupSpecs HeatmapSpecs ChartExtras TabExtras.
Local Open Scope string_scope.
Local Open Scope list_scope.

Lemma seq_next {A B} (m : script A) (k : A -> script B) log log' a :
  m log = (log', Next a) -> seq_ m k log = k a log'.
Proof. intros H. unfold seq_. now rewrite H. Qed.



Section OnAView.
Variables (df : DataFrame) (spec : FilterSpec) (st : FilterState).
Hypothesis Hwf : well_formed df = true.
Hypothesis Hok : filter_spec_ok df spec = true.
Hypothesis Hrun : apply_filters df spec = Ok st.

(** A name of either list can be read from the view; the column read is as
    long as the view. *)
Lemma listed_column_readable (col : string) :
  In col (num_cols st) \/ In col (cat_cols st) ->
  exists s, getitem (df_filtered st) col = Ok s
            /\ In s (columns (df_filtered st)) /\ name s = col
            /\ List.length (cells (data s)) = len (df_filtered st).
Proof.
  apply andb_true_iff in Hwf as Hwf'. destruct Hwf' as [Hd Ha].
  intros Hin.
  assert (Hc : exists c, In c (columns (df_filtered st)) /\ name c = col).
  { destruct Hin as [H|H].
    - apply (@view_num_cols_In _ _ _ Hd Hrun) in H as (c & Hc & N & _). eauto.
    - apply (@view_cat_cols_In _ _ _ Hd Hrun) in H as (c & Hc & N & _). eauto. }
  destruct Hc as (c & Hc & N).
  destruct (@getitem_total (df_filtered st) col) as [s Hs].
  { rewrite <- N. unfold columns_tolist. now apply in_map. }
  exists s. apply getitem_In in Hs as Hs'. destruct Hs' as [Hsin Hsn].
  repeat split; auto.
  pose proof (@view_aligned _ _ _ Hrun Ha) as Hav.
  unfold aligned in Hav. rewrite forallb_forall in Hav.
  specialize (Hav s Hsin). now apply Nat.eqb_eq in Hav.
Qed.




(** The lines of the loop of lines 362-363: one per column, in order, each
    with the unique count of its column. *)
Lemma write_nuniques_lines (cols : list string) (log : list Event) :
  incl cols (cat_cols st) ->
  exists lines,
    write_nuniques (df_filtered st) cols log = (log ++ lines, Next tt)
    /\ Forall2 (fun col line =>
                  exists s, getitem (df_filtered st) col = Ok s
                            /\ line = st_write_nunique col (nunique s))
         cols lines.
Proof.
  revert log. induction cols as [|c cols IH]; intros log Hi; simpl.
  - exists []. rewrite app_nil_r. split; [reflexivity | constructor].
  - destruct (@listed_column_readable c) as (s & Hs & _);
      [right; apply Hi; now left|].
    destruct (IH (log ++ [st_write_nunique c (nunique s)])) as (ls & Hl & Hn).
    { intros x Hx. apply Hi. now right. }
    exists (st_write_nunique c (nunique s) :: ls).
    unfold seq_ at 1, call. rewrite Hs. unfold seq_, emit.
    unfold seq_ in Hl. rewrite Hl. rewrite <- app_assoc. simpl.
    split; [reflexivity|]. constructor; eauto.
Qed.

Lemma stats_tab_lines (log : list Event) :
  exists first nuniques,
    stats_tab st log
    = (log ++ first
           ++ (if truthy (cat_cols st)
               then st_write "**Categorical Columns:**" :: nuniques
               else []),
       Next tt)
    /\ (if truthy (num_cols st)
        then exists numeric,
               getitem_cols (df_filtered st) (num_cols st) = Ok numeric
               /\ columns_tolist numeric = num_cols st
               /\ first = [st_write "**Numeric Columns:**";
                           st_describe numeric]
        else first = [st_info "No numeric columns"])
    /\ Forall2 (fun col line =>
                  exists s, getitem (df_filtered st) col = Ok s
                            /\ line = st_write_nunique col (nunique s))
         (firstn 5 (cat_cols st)) nuniques.
Proof.
  destruct (@numeric_columns _ _ _ Hwf Hok Hrun) as (numeric & Hg & Hn & _).
  set (first := if truthy (num_cols st)
                then [st_write "**Numeric Columns:**"; st_describe numeric]
                else [st_info "No numeric columns"]).
  assert (Hf : (if truthy (num_cols st)
                then emit (st_write "**Numeric Columns:**") ;;;
                     numeric <~ call (getitem_cols (df_filtered st)
                                        (num_cols st)) ;;
                     emit (st_describe numeric)
                else emit (st_info "No numeric columns")) log
               = (log ++ first, Next tt)).
  { unfold first. destruct (truthy (num_cols st)); [|reflexivity].
    unfold seq_, emit, call. rewrite Hg. simpl. now rewrite <- app_assoc. }
  destruct (@write_nuniques_lines (firstn 5 (cat_cols st))
              ((log ++ first) ++ [st_write "**Categorical Columns:**"]))
    as (ls & Hl & Hlines); [apply firstn_incl|].
  exists first, ls. split; [|split; [|exact Hlines]].
  - unfold stats_tab. rewrite (@seq_next _ _ _ _ _ _ _ Hf). unfold when.
    destruct (truthy (cat_cols st)).
    + unfold seq_ at 1, emit. rewrite Hl. now rewrite <- !app_assoc.
    + unfold ret. now rewrite app_nil_r.
  - unfold first. destruct (truthy (num_cols st)); eauto.
Qed.

End OnAView.



(** Lines 351-365 on a view the filters produced: the statistics tab is
    always shown, no column read fails.  It heads and describes the frame
    of exactly the numeric columns, or says there are none; then, when a
    categorical column exists, it heads and lists the first five
    categorical columns, in their order, each with the number of distinct
    present values of that column in the view. *)
Theorem stats_tab_shown (df : DataFrame) (spec : FilterSpec)
    (st : FilterState) (log : list Event) :
  well_formed df = true ->
  filter_spec_ok df spec = true ->
  apply_filters df spec = Ok st ->
  exists first nuniques,
    stats_tab st log
    = (log ++ first
           ++ (if truthy (cat_cols st)
               then st_write "**Categorical Columns:**" :: nuniques
               else []),
       Next tt)
    /\ (if truthy (num_cols st)
        then exists numeric,
               getitem_cols (df_filtered st) (num_cols st) = Ok numeric
               /\ columns_tolist numeric = num_cols st
               /\ first = [st_write "**Numeric Columns:**";
                           st_describe numeric]
        else first = [st_info "No numeric columns"])
    /\ Forall2 (fun col line =>
                  exists s, getitem (df_filtered st) col = Ok s
                            /\ line = st_write_nunique col (nunique s))
         (firstn 5 (cat_cols st)) nuniques.
Proof.
  intros Hwf Hok Hrun. exact (@stats_tab_lines _ _ _ Hwf Hok Hrun log).
Qed.

Lemma stats_tab_shown_witness :
  exists first nuniques,
    stats_tab Samples.blanks_view []
    = ([] ++ first ++ st_write "**Categorical Columns:**" :: nuniques,
       Next tt)
    /\ (exists numeric,
          getitem_cols Samples.blanks ["Sales"; "Stock"] = Ok numeric
          /\ columns_tolist numeric = ["Sales"; "Stock"]
          /\ first = [st_write "**Numeric Columns:**"; st_describe numeric])
    /\ Forall2 (fun col line =>
                  exists s, getitem Samples.blanks col = Ok s
                            /\ line = st_write_nunique col (nunique s))
         ["Region"] nuniques.
Proof.
  apply (@stats_tab_shown Samples.blanks Samples.blanks_default
           Samples.blanks_view []); reflexivity.
Defined.



End RunExtras.

(* ================================================================== *)
(** * A check that never fires (lines 101-118) *)
(* ================================================================== *)

Module NeverShown.
Import Py Pd App Dashboard Shown.
Local Open Scope string_scope.
Local Open Scope list_scope.

Section Adding.
Variable bad : Event -> bool.

Lemma adds_none_ret {A} (a : A) : adds_none bad (ret a).
Proof. intros log H. exact H. Qed.

Lemma adds_none_stop {A} : adds_none bad (@st_stop A).
Proof. intros log H. exact H. Qed.

Lemma adds_none_call {A} (r : result A) : adds_none bad (call r).
Proof. intros log H. unfold call. destruct r; exact H. Qed.

Lemma adds_none_emit (e : Event) : bad e = false -> adds_none bad (emit e).
Proof.
  intros He log H. unfold emit, never_shows in *. simpl.
  rewrite forallb_app, H. simpl. now rewrite He.
Qed.

Lemma adds_none_seq {A B} (m : script A) (k : A -> script B) :
  adds_none bad m -> (forall a, adds_none bad (k a)) ->
  adds_none bad (seq_ m k).
Proof.
  intros Hm Hk log H. unfold seq_. specialize (Hm log H).
  destruct (m log) as [log' [a| |e]]; simpl in *; auto.
  now apply Hk.
Qed.

Lemma adds_none_when (b : bool) (m : script unit) :
  adds_none bad m -> adds_none bad (when b m).
Proof. intros Hm. unfold when. destruct b; [exact Hm | apply adds_none_ret]. Qed.

Lemma adds_none_try (body : script unit) (handler : exn -> script unit) :
  adds_none bad body -> (forall e, adds_none bad (handler e)) ->
  adds_none bad (try_except body handler).
Proof.
  intros Hb Hh log H. unfold try_except. specialize (Hb log H).
  destruct (body log) as [log' [a| |e]]; simpl in *; auto.
  now apply Hh.
Qed.

End Adding.

Create HintDb shown.

#[local] Hint Resolve adds_none_ret adds_none_stop adds_none_call
  adds_none_emit adds_none_seq adds_none_when adds_none_try : shown.

Lemma load_df_adds_none (f : option UploadedFile) :
  adds_none is_no_columns_error (load_df f).
Proof.
  unfold load_df. destruct f as [f|]; auto with shown.
  destruct (endswith (lower (file_name f)) ".csv").
  - destruct (read_csv f); auto with shown.
  - destruct (endswith (lower (file_name f)) ".xls"
              || endswith (lower (file_name f)) ".xlsx");
      [destruct (read_excel f)|]; auto with shown.
Qed.

Lemma load_adds_none (gapminder_2007 : result DataFrame) (w : Widgets) :
  adds_none is_no_columns_error (load gapminder_2007 w).
Proof.
  unfold load. apply adds_none_seq.
  - destruct (file w) as [f|]; auto with shown.
    apply adds_none_seq; [apply load_df_adds_none|].
    intros [d|]; apply adds_none_seq; auto with shown.
  - intros [d|]; auto with shown.
    destruct (use_sample w); auto with shown.
    apply adds_none_seq.
    + unfold get_sample_data. destruct gapminder_2007; auto with shown.
    + intros d. auto 6 with shown.
Qed.

Lemma kpi_cards_adds_none (st : FilterState) :
  adds_none is_no_columns_error (kpi_cards st).
Proof.
  unfold kpi_cards.
  destruct (num_cols st), (cat_cols st); auto 10 with shown.
Qed.

Lemma chart_tab_adds_none (px : Px.Raises) (st : FilterState)
    (req : ChartRequest) :
  adds_none is_no_columns_error (chart_tab px st req).
Proof.
  unfold chart_tab. apply adds_none_seq; auto with shown.
  intros _. apply adds_none_try; auto with shown.
  apply adds_none_seq; auto with shown.
  intros [[fig|] [msg|]]; auto 6 with shown.
Qed.

Lemma write_nuniques_adds_none (df : DataFrame) (cols : list string) :
  adds_none is_no_columns_error (write_nuniques df cols).
Proof.
  induction cols as [|col rest IH]; simpl; auto 6 with shown.
Qed.

Lemma stats_tab_adds_none (st : FilterState) :
  adds_none is_no_columns_error (stats_tab st).
Proof.
  unfold stats_tab. apply adds_none_seq.
  - destruct (truthy (num_cols st)); auto 8 with shown.
  - intros _. apply adds_none_when. apply adds_none_seq; auto with shown.
    intros _. apply write_nuniques_adds_none.
Qed.

Lemma after_filters_adds_none (px : Px.Raises) (df : DataFrame)
    (spec : FilterSpec) (req : ChartRequest) :
  adds_none is_no_columns_error
    (st <~ call (apply_filters df spec) ;;
     when (empty (df_filtered st) || (len (df_filtered st) =? 0)%nat)
          (emit (st_warning no_match_msg) ;;; st_stop) ;;;
     kpi_cards st ;;;
     chart_tab px st req ;;;
     data_tab st ;;;
     stats_tab st ;;;
     emit st_about).
Proof.
  apply adds_none_seq; auto with shown. intros st.
  apply adds_none_seq; auto 6 with shown. intros _.
  apply adds_none_seq; [apply kpi_cards_adds_none|]. intros _.
  apply adds_none_seq; [apply chart_tab_adds_none|]. intros _.
  apply adds_none_seq; [unfold data_tab; auto 6 with shown|]. intros _.
  apply adds_none_seq; [apply stats_tab_adds_none|]. intros _.
  auto with shown.
Qed.

(** A frame that passes the check of line 102 has a column, so one of the
    two lists of lines 113-114 is not empty. *)
Lemma detection_finds_a_column (df : DataFrame) :
  empty df || (len df =? 0)%nat = false ->
  negb (truthy (detect_num_cols df)) && negb (truthy (detect_cat_cols df))
  = false.
Proof.
  intros H. apply orb_false_iff in H as [H _].
  destruct (RunSpecs.empty_false _ H) as (_ & s & cols & Hcols).
  unfold detect_num_cols, detect_cat_cols, columns_tolist; simpl.
  rewrite Hcols; simpl.
  destruct (is_number (dtype_of (data s))); simpl; auto.
  apply andb_false_r.
Qed.

(** The "No valid columns found" error of lines 116-118 is never shown,
    whatever is uploaded and whatever the widgets return: a frame without
    columns is empty for pandas, so the run has already stopped at line
    104 with "Dataset is empty!". *)
Theorem no_columns_error_never_shown (px : Px.Raises)
    (gapminder_2007 : result DataFrame)
    (w : Widgets) :
  never_shows is_no_columns_error (fst (run px gapminder_2007 w)) = true.
Proof.
  unfold run, main.
  pose proof (@load_adds_none gapminder_2007 w [] eq_refl) as Hl.
  unfold seq_ at 1.
  destruct (load gapminder_2007 w []) as [log0 [[df|]| |e]]; simpl in Hl;
    auto.
  - destruct (empty df || (len df =? 0)%nat) eqn:He.
    + unfold seq_, when, emit, st_stop. simpl.
      unfold never_shows in *. rewrite forallb_app, Hl. reflexivity.
    + rewrite (detection_finds_a_column _ He).
      unfold seq_ at 1 2, when, ret.
      now apply after_filters_adds_none.
  - unfold seq_, emit, st_stop. simpl.
    unfold never_shows in *. rewrite forallb_app, Hl. reflexivity.
Qed.

End NeverShown.
